(** * relisten-realm-migrator: the [/migrate] extraction pipeline

    A shallow embedding of [src/index.js]: the JavaScript runtime
    primitives the handler relies on ([String.prototype.toLowerCase],
    [Array.prototype.sort], property lookup on a plain object), the data
    read from the Realm store, [aggregateBy], and the request handler
    with its [try]/[catch]/[finally] structure and its trace of external
    effects. *)

From Stdlib Require Import ZArith Ascii String.
From stdpp Require Import base option list sorting strings gmap.

Open Scope string_scope.
Open Scope list_scope.

(** ** JavaScript runtime primitives *)

Module JS.

(** Thrown values.  Every value thrown by the runtime and by the
    libraries called from the handler is an [Error] instance, so
    [error instanceof Error] holds and [error.message] is read. *)
Record exn := Error { message : string }.

(** Values a Realm object property can evaluate to.  Numbers are kept
    to the integers, dates are epoch milliseconds; links and
    collections, which none of the declared schemas uses, are left
    out.  [JSON.stringify] accepts every value of this type. *)
Inductive value :=
| VUndefined
| VNull
| VBool (b : bool)
| VNumber (n : Z)
| VString (s : string)
| VDate (t : Z).

(** Strings are sequences of code units below 256.  On that range
    [toLowerCase] moves the capital letters A-Z, and the Latin-1
    capitals U+00C0-U+00DE without the multiplication sign U+00D7, up
    by 32 and leaves every other unit alone. *)
Definition lowerUnit (c : ascii) : ascii :=
  let n := N_of_ascii c in
  if ((65 <=? n) && (n <=? 90)
      || (192 <=? n) && (n <=? 222) && negb (n =? 215))%N
  then ascii_of_N (n + 32)
  else c.

Fixpoint toLowerCase (s : string) : string :=
  match s with
  | EmptyString => EmptyString
  | String c s' => String (lowerUnit c) (toLowerCase s')
  end.

(** [v.toLowerCase()] for a property value [v]: a [TypeError] unless
    [v] is a string. *)
Definition callToLowerCase (v : value) : exn + string :=
  match v with
  | VString s => inr (toLowerCase s)
  | VUndefined | VNull =>
      inl (Error "Cannot read properties of undefined (reading 'toLowerCase')")
  | _ => inl (Error "toLowerCase is not a function")
  end.

(** The default order of [Array.prototype.sort] on strings: code unit
    by code unit. *)
Definition unit_le (a b : string) : Prop := String.leb a b = true.

#[global] Instance unit_le_dec : RelDecision unit_le.
Proof. intros a b; unfold unit_le; apply _. Defined.

(** [array.sort()] on an array of strings.  The comparison is a total
    order on strings, so the sorted array does not depend on the
    engine's algorithm (see [sort_any_algorithm]); merge sort stands
    for it. *)
Definition sort (l : list string) : list string := merge_sort unit_le l.

(** Names [{}] inherits from [Object.prototype]. *)
Definition prototypeNames : list string :=
  [ "constructor"; "__defineGetter__"; "__defineSetter__";
    "hasOwnProperty"; "__lookupGetter__"; "__lookupSetter__";
    "isPrototypeOf"; "propertyIsEnumerable"; "toString"; "valueOf";
    "__proto__"; "toLocaleString" ].

Definition inherited (key : string) : bool :=
  bool_decide (key ∈ prototypeNames).

End JS.

(** ** The error monad of expressions that may throw *)

Abbreviation Res := (sum JS.exn).

#[global] Instance Res_ret : MRet Res := λ A a, inr a.
#[global] Instance Res_bind : MBind Res :=
  λ A B f m, match m with inl e => inl e | inr a => f a end.

(** [array.map(f)] where the callback may throw: the first throwing
    element aborts the whole call. *)
Fixpoint mapRes {A B} (f : A → Res B) (l : list A) : Res (list B) :=
  match l with
  | [] => inr []
  | x :: l' => y ← f x; ys ← mapRes f l'; mret (y :: ys)
  end.

(** A [for ... of] loop threading an accumulator, body may throw. *)
Fixpoint foldRes {A S} (f : S → A → Res S) (acc : S) (l : list A) : Res S :=
  match l with
  | [] => inr acc
  | x :: l' => acc' ← f acc x; foldRes f acc' l'
  end.

(** ** The schema catalog *)

Inductive propType := TString | TDate | TInt | TIntOpt | TBool.

Record ObjectSchema := {
  name : string;
  primaryKey : string;
  properties : list (string * propType)
}.

Definition FavoritedArtistSchema : ObjectSchema := {|
  name := "FavoritedArtist";
  primaryKey := "uuid";
  properties := [("uuid", TString); ("created_at", TDate)]
|}.

Definition FavoritedShowSchema : ObjectSchema := {|
  name := "FavoritedShow";
  primaryKey := "uuid";
  properties := [("uuid", TString); ("created_at", TDate);
                 ("show_date", TDate); ("artist_uuid", TString)]
|}.

Definition FavoritedSourceSchema : ObjectSchema := {|
  name := "FavoritedSource";
  primaryKey := "uuid";
  properties := [("uuid", TString); ("created_at", TDate);
                 ("artist_uuid", TString); ("show_uuid", TString);
                 ("show_date", TDate)]
|}.

Definition FavoritedTrackSchema : ObjectSchema := {|
  name := "FavoritedTrack";
  primaryKey := "uuid";
  properties := [("uuid", TString); ("created_at", TDate);
                 ("artist_uuid", TString); ("show_uuid", TString);
                 ("source_uuid", TString)]
|}.

Definition RecentlyPlayedTrackSchema : ObjectSchema := {|
  name := "RecentlyPlayedTrack";
  primaryKey := "uuid";
  properties := [("uuid", TString); ("created_at", TDate);
                 ("artist_uuid", TString); ("show_uuid", TString);
                 ("source_uuid", TString); ("track_uuid", TString);
                 ("updated_at", TDate); ("past_halfway", TBool)]
|}.

Definition OfflineTrackSchema : ObjectSchema := {|
  name := "OfflineTrack";
  primaryKey := "track_uuid";
  properties := [("track_uuid", TString); ("artist_uuid", TString);
                 ("show_uuid", TString); ("source_uuid", TString);
                 ("created_at", TDate); ("state", TInt);
                 ("file_size", TIntOpt)]
|}.

Definition OfflineSourceSchema : ObjectSchema := {|
  name := "OfflineSource";
  primaryKey := "source_uuid";
  properties := [("source_uuid", TString); ("artist_uuid", TString);
                 ("show_uuid", TString); ("year_uuid", TString);
                 ("created_at", TDate)]
|}.

(** The [schema] array of the first open attempt. *)
Definition declaredSchema : list ObjectSchema :=
  [FavoritedArtistSchema; FavoritedShowSchema; FavoritedSourceSchema;
   FavoritedTrackSchema; RecentlyPlayedTrackSchema; OfflineTrackSchema;
   OfflineSourceSchema].

(** The configuration object passed to [new Realm]; the path is the
    temporary input. *)
Record Configuration := {
  readOnly : bool;
  schema : option (list ObjectSchema)
}.

Definition withDeclaredSchema : Configuration :=
  {| readOnly := true; schema := Some declaredSchema |}.

Definition withoutSchema : Configuration :=
  {| readOnly := true; schema := None |}.

Module OfflineTrackState.
Definition UNKNOWN : Z := 0.
Definition DOWNLOAD_QUEUED : Z := 1.
Definition DOWNLOADING : Z := 2.
Definition DOWNLOADED : Z := 3.
Definition DELETING : Z := 4.
End OfflineTrackState.

(** ** The store as the handler sees it *)

(** A Realm object: its properties by name.  Under the schemaless open
    the file decides which properties an object has and of what type. *)
Abbreviation Row := (gmap string JS.value).

(** [o.p]: a property the object lacks reads as [undefined]. *)
Definition prop (o : Row) (p : string) : JS.value :=
  default JS.VUndefined (o !! p).

Module Realm.
Record t := {
  schemaVersion : Z;
  tables : gmap string (list Row)
}.
End Realm.

(** [realm.objects(name)]: the objects of a type in the store's
    iteration order; throws when the opened schema has no such type. *)
Definition objects (realm : Realm.t) (name : string) : Res (list Row) :=
  match Realm.tables realm !! name with
  | Some rows => inr rows
  | None => inl (JS.Error "Object type not found in schema")
  end.

Definition hasType (v : JS.value) (ty : propType) : bool :=
  match ty, v with
  | TString, JS.VString _ => true
  | TDate, JS.VDate _ => true
  | TInt, JS.VNumber _ => true
  | TIntOpt, JS.VNumber _ => true
  | TIntOpt, JS.VNull => true
  | TBool, JS.VBool _ => true
  | _, _ => false
  end.

#[global] Instance value_eq_dec : EqDecision JS.value.
Proof. solve_decision. Defined.

(** The objects of one table follow an object schema: every declared
    property has its declared type and the primary key is unique. *)
Definition conforms (schema : ObjectSchema) (rows : list Row) : Prop :=
  Forall (λ o, Forall (λ '(p, ty), hasType (prop o p) ty = true)
                      (properties schema)) rows
  ∧ NoDup ((λ o, prop o (primaryKey schema)) <$> rows).

(** The store holds a table for the schema and the table follows it. *)
Definition hasTable (realm : Realm.t) (schema : ObjectSchema) : Prop :=
  ∃ rows, Realm.tables realm !! name schema = Some rows ∧ conforms schema rows.

(** The store holds every declared table in its declared shape: what
    the first open attempt checks for. *)
Definition followsDeclaredSchema (realm : Realm.t) : Prop :=
  Forall (hasTable realm) declaredSchema.

(** ** The snapshot *)

Module Source.
Record t := {
  uuid : string;
  created_at : JS.value;
  artist_uuid : string;
  show_uuid : string;
  show_date : JS.value
}.
End Source.

Module OfflineTrack.
Record t := {
  track_uuid : string;
  artist_uuid : string;
  show_uuid : string;
  source_uuid : string;
  created_at : JS.value;
  state : JS.value;
  file_size : JS.value
}.
End OfflineTrack.

Record LegacyData := {
  trackUuids : list string;
  showUuids : list string;
  sources : list Source.t;
  artistUuids : list string;
  offlineTracksBySource : gmap string (list OfflineTrack.t);
  schemaVersion : Z
}.

(** ** aggregateBy *)

Section aggregateBy.
Context {A : Type} (keySelector : A → string).

(** What [result[key]] evaluates to on an object created by [{}] whose
    own properties are arrays: the own array, a member inherited from
    [Object.prototype], or [undefined]. *)
Inductive member := Own (l : list A) | Inherited | Undefined.

Definition getMember (result : gmap string (list A)) (key : string) : member :=
  match result !! key with
  | Some l => Own l
  | None => if JS.inherited key then Inherited else Undefined
  end.

(** Arrays, also empty ones, and the inherited functions and objects
    are truthy; only [undefined] is falsy. *)
Definition truthy (m : member) : bool :=
  match m with Undefined => false | _ => true end.

(** One iteration of the loop body. *)
Definition aggregateStep (result : gmap string (list A)) (item : A)
  : Res (gmap string (list A)) :=
  let key := keySelector item in
  let result :=
    if negb (truthy (getMember result key)) then <[key := []]> result
    else result in
  match getMember result key with
  | Own l => inr (<[key := l ++ [item]]> result)
  | _ => inl (JS.Error "result[key].push is not a function")
  end.

Definition aggregateBy (items : list A) : Res (gmap string (list A)) :=
  foldRes aggregateStep ∅ items.

End aggregateBy.

(** ** The expressions of the extraction block *)

(** [Array.from(realm.objects(name)).map((o) => o.uuid.toLowerCase()).sort()] *)
Definition favoriteUuids (realm : Realm.t) (table : string) : Res (list string) :=
  rows ← objects realm table;
  ids ← mapRes (λ o, JS.callToLowerCase (prop o "uuid")) rows;
  mret (JS.sort ids).

(** The object literal built for one favorited source. *)
Definition toSource (o : Row) : Res Source.t :=
  uuid ← JS.callToLowerCase (prop o "uuid");
  artist_uuid ← JS.callToLowerCase (prop o "artist_uuid");
  show_uuid ← JS.callToLowerCase (prop o "show_uuid");
  mret {| Source.uuid := uuid;
          Source.created_at := prop o "created_at";
          Source.artist_uuid := artist_uuid;
          Source.show_uuid := show_uuid;
          Source.show_date := prop o "show_date" |}.

Definition favoriteSources (realm : Realm.t) : Res (list Source.t) :=
  rows ← objects realm "FavoritedSource";
  mapRes toSource rows.

(** [o.state === OfflineTrackState.DOWNLOADED] *)
Definition isDownloaded (o : Row) : bool :=
  bool_decide (prop o "state" = JS.VNumber OfflineTrackState.DOWNLOADED).

(** The object literal built for one downloaded offline track. *)
Definition toOfflineTrack (o : Row) : Res OfflineTrack.t :=
  track_uuid ← JS.callToLowerCase (prop o "track_uuid");
  artist_uuid ← JS.callToLowerCase (prop o "artist_uuid");
  show_uuid ← JS.callToLowerCase (prop o "show_uuid");
  source_uuid ← JS.callToLowerCase (prop o "source_uuid");
  mret {| OfflineTrack.track_uuid := track_uuid;
          OfflineTrack.artist_uuid := artist_uuid;
          OfflineTrack.show_uuid := show_uuid;
          OfflineTrack.source_uuid := source_uuid;
          OfflineTrack.created_at := prop o "created_at";
          OfflineTrack.state := prop o "state";
          OfflineTrack.file_size := prop o "file_size" |}.

(** [Array.from(offlineTracks).filter(...).map(...)] *)
Definition downloadedTracks (offlineTracks : list Row) : Res (list OfflineTrack.t) :=
  mapRes toOfflineTrack (List.filter isDownloaded offlineTracks).

(** From [realm.objects('OfflineTrack')] to the [aggregateBy] call. *)
Definition offlineTracks (realm : Realm.t)
  : Res (gmap string (list OfflineTrack.t)) :=
  rows ← objects realm "OfflineTrack";
  downloaded ← downloadedTracks rows;
  aggregateBy OfflineTrack.source_uuid downloaded.

(** ** Responses, effects and the handler monad *)

Inductive Body :=
| ErrorBody (error : string)
| ErrorDetailsBody (error details : string)
| SuccessBody (data : LegacyData) (isEmpty : bool).

Record Response := json { body : Body; status : Z }.

(** External effects, in the order they happen. *)
Inductive Event :=
| EvWriteFile (path : Z) (done : bool)
| EvOpen (config : Configuration) (opened : bool)
| EvClose
| EvUnlink (path : Z) (done : bool)
| EvConsoleError (e : JS.exn)
| EvConsoleWarn (e : JS.exn).

(** How a statement completes. *)
Inductive completion (A : Type) :=
| Normal (a : A)
| Return (r : Response)
| Throw (e : JS.exn).
Arguments Normal {A} a.
Arguments Return {A} r.
Arguments Throw {A} e.

(** The handler's mutable locals and the effects so far.  The
    temporary path [realm_input_<timestamp>.realm] is identified by its
    timestamp; [legacyData] holds the object the handler mutates field
    by field. *)
Record State := {
  tempInputPath : option Z;
  legacyData : LegacyData;
  events : list Event
}.

Definition M (A : Type) : Type := State → completion A * State.

#[global] Instance M_ret : MRet M := λ A a st, (Normal a, st).
#[global] Instance M_bind : MBind M :=
  λ A B f m st,
    match m st with
    | (Normal a, st') => f a st'
    | (Return r, st') => (Return r, st')
    | (Throw e, st') => (Throw e, st')
    end.

Definition returnWith {A} (r : Response) : M A := λ st, (Return r, st).
Definition throw {A} (e : JS.exn) : M A := λ st, (Throw e, st).

Definition liftRes {A} (r : Res A) : M A :=
  match r with inl e => throw e | inr a => mret a end.

Definition tryCatch {A} (block : M A) (handler : JS.exn → M A) : M A :=
  λ st,
    match block st with
    | (Throw e, st') => handler e st'
    | other => other
    end.

(** [try { block } finally { cleanup }]: the block's completion stands
    unless the cleanup itself returns or throws. *)
Definition tryFinally {A} (block : M A) (cleanup : M unit) : M A :=
  λ st,
    match block st with
    | (c, st') =>
        match cleanup st' with
        | (Normal _, st'') => (c, st'')
        | (Return r, st'') => (Return r, st'')
        | (Throw e, st'') => (Throw e, st'')
        end
    end.

Definition emit (ev : Event) : M unit :=
  λ st, (Normal (), {| tempInputPath := tempInputPath st;
                       legacyData := legacyData st;
                       events := events st ++ [ev] |}).

Definition setTempInputPath (p : option Z) : M unit :=
  λ st, (Normal (), {| tempInputPath := p;
                       legacyData := legacyData st;
                       events := events st |}).

Definition getTempInputPath : M (option Z) := λ st, (Normal (tempInputPath st), st).

Definition updLegacyData (f : LegacyData → LegacyData) : M unit :=
  λ st, (Normal (), {| tempInputPath := tempInputPath st;
                       legacyData := f (legacyData st);
                       events := events st |}).

Definition getLegacyData : M LegacyData := λ st, (Normal (legacyData st), st).

Definition setTrackUuids (v : list string) (d : LegacyData) : LegacyData :=
  {| trackUuids := v; showUuids := showUuids d; sources := sources d;
     artistUuids := artistUuids d;
     offlineTracksBySource := offlineTracksBySource d;
     schemaVersion := schemaVersion d |}.

Definition setShowUuids (v : list string) (d : LegacyData) : LegacyData :=
  {| trackUuids := trackUuids d; showUuids := v; sources := sources d;
     artistUuids := artistUuids d;
     offlineTracksBySource := offlineTracksBySource d;
     schemaVersion := schemaVersion d |}.

Definition setSources (v : list Source.t) (d : LegacyData) : LegacyData :=
  {| trackUuids := trackUuids d; showUuids := showUuids d; sources := v;
     artistUuids := artistUuids d;
     offlineTracksBySource := offlineTracksBySource d;
     schemaVersion := schemaVersion d |}.

Definition setArtistUuids (v : list string) (d : LegacyData) : LegacyData :=
  {| trackUuids := trackUuids d; showUuids := showUuids d; sources := sources d;
     artistUuids := v;
     offlineTracksBySource := offlineTracksBySource d;
     schemaVersion := schemaVersion d |}.

Definition setOfflineTracksBySource (v : gmap string (list OfflineTrack.t))
    (d : LegacyData) : LegacyData :=
  {| trackUuids := trackUuids d; showUuids := showUuids d; sources := sources d;
     artistUuids := artistUuids d;
     offlineTracksBySource := v;
     schemaVersion := schemaVersion d |}.

(** ** The environment of one request *)

(** An uploaded file, by what opening it yields: the bytes and the
    configuration decide whether [new Realm] throws and which objects
    the handle shows. *)
Record File := {
  openWith : Configuration → Res Realm.t
}.

Abbreviation openDeclared file := (openWith file withDeclaredSchema).
Abbreviation openSchemaless file := (openWith file withoutSchema).

(** The [database] entry of the form: an uploaded file, or the text of
    a plain field. *)
Inductive Entry :=
| FileEntry (file : File)
| TextEntry (text : string).

(** [databaseFile.arrayBuffer()]: the bytes of an uploaded file; a
    string has no such method and the call throws a [TypeError]. *)
Definition arrayBuffer (databaseFile : Entry) : Res File :=
  match databaseFile with
  | FileEntry file => inr file
  | TextEntry _ => inl (JS.Error "databaseFile.arrayBuffer is not a function")
  end.

(** What the outside world does during one request: parsing the form
    and reading its [database] entry ([null] when absent), the clock,
    and whether writing and removing the temporary input fail. *)
Record Env := {
  database : Res (option Entry);
  now : Z;
  writeError : option JS.exn;
  unlinkError : option JS.exn
}.

(** [writeFileSync(tempInputPath, databaseBuffer)] *)
Definition writeFileSync (env : Env) (path : Z) : M unit :=
  match writeError env with
  | Some e => emit (EvWriteFile path false);; throw e
  | None => emit (EvWriteFile path true)
  end.

(** [unlinkSync(tempInputPath)] *)
Definition unlinkSync (env : Env) (path : Z) : M unit :=
  match unlinkError env with
  | Some e => emit (EvUnlink path false);; throw e
  | None => emit (EvUnlink path true)
  end.

(** [new Realm(config)] on the temporary input. *)
Definition newRealm (file : File) (config : Configuration) : M Realm.t :=
  match openWith file config with
  | inl e => emit (EvOpen config false);; throw e
  | inr realm => emit (EvOpen config true);; mret realm
  end.

Definition isEmptyOf (d : LegacyData) : bool :=
  negb ((0 <? length (trackUuids d))%nat
        || (0 <? length (showUuids d))%nat
        || (0 <? length (sources d))%nat
        || (0 <? length (artistUuids d))%nat
        || (0 <? length (map_to_list (offlineTracksBySource d)))%nat).

(** ** The [/migrate] handler *)

(** The body of the inner [try]. *)
Definition extraction (realm : Realm.t) : M unit :=
  ids ← liftRes (favoriteUuids realm "FavoritedTrack");
  updLegacyData (setTrackUuids ids);;
  ids ← liftRes (favoriteUuids realm "FavoritedShow");
  updLegacyData (setShowUuids ids);;
  srcs ← liftRes (favoriteSources realm);
  updLegacyData (setSources srcs);;
  ids ← liftRes (favoriteUuids realm "FavoritedArtist");
  updLegacyData (setArtistUuids ids);;
  grouped ← liftRes (offlineTracks realm);
  updLegacyData (setOfflineTracksBySource grouped).

Section handler.

(** [c.json(body, status)], the framework call that turns a body into
    the response.  The handler is written against any behaviour of it,
    throwing included. *)
Variable c_json : Body → Z → Res Response.

(** [return c.json(body, status)] *)
Definition returnJson {A} (body : Body) (status : Z) : M A :=
  r ← liftRes (c_json body status); returnWith r.

Definition migrateWith (env : Env) : M unit :=
  tryFinally
    (tryCatch
       (databaseFile ← liftRes (database env);
        match databaseFile with
        | None | Some (TextEntry EmptyString) =>
            (* [!databaseFile]: [null] and the empty string are falsy *)
            returnJson (ErrorBody "Database file is required") 400
        | Some entry =>
            let timestamp := now env in
            setTempInputPath (Some timestamp);;
            file ← liftRes (arrayBuffer entry);
            writeFileSync env timestamp;;
            realm ← tryCatch (newRealm file withDeclaredSchema)
                      (λ _, tryCatch (newRealm file withoutSchema)
                         (λ err,
                            emit (EvConsoleError err);;
                            returnJson
                              (ErrorBody "Unable to read database or unsupported version")
                              400));
            updLegacyData (λ _,
              {| trackUuids := []; showUuids := []; sources := [];
                 artistUuids := []; offlineTracksBySource := ∅;
                 schemaVersion := Realm.schemaVersion realm |});;
            tryCatch (extraction realm)
                     (λ error, emit (EvConsoleWarn error));;
            emit EvClose;;
            legacyData ← getLegacyData;
            returnJson (SuccessBody legacyData (isEmptyOf legacyData)) 200
        end)
       (λ error,
          emit (EvConsoleError error);;
          returnJson (ErrorDetailsBody "Database parsing failed" (JS.message error))
                     500))
    (tryCatch
       (path ← getTempInputPath;
        match path with
        | Some p => unlinkSync env p
        | None => mret ()
        end)
       (λ _, mret ())).

End handler.

(** [c.json] as the framework provides it: every body the handler
    builds is made of values [JSON.stringify] accepts, so the call
    returns the response. *)
Definition serialize (body : Body) (status : Z) : Res Response :=
  inr (json body status).

(** The handler as deployed. *)
Definition migrate (env : Env) : M unit := migrateWith serialize env.

(** Locals before the handler runs: [tempInputPath] is [null], the
    snapshot object does not exist yet. *)
Definition initial : State := {|
  tempInputPath := None;
  legacyData := {| trackUuids := []; showUuids := []; sources := [];
                   artistUuids := []; offlineTracksBySource := ∅;
                   schemaVersion := 0 |};
  events := []
|}.

(** The response the handler resolves to, and the effects it had. *)
Definition response (env : Env) : option Response :=
  match migrate env initial with
  | (Return r, _) => Some r
  | _ => None
  end.

Definition trace (env : Env) : list Event := events (snd (migrate env initial)).

(** The same for a run against an arbitrary [c.json]. *)
Definition responseWith (c_json : Body → Z → Res Response) (env : Env)
  : option Response :=
  match migrateWith c_json env initial with
  | (Return r, _) => Some r
  | _ => None
  end.

Definition traceWith (c_json : Body → Z → Res Response) (env : Env)
  : list Event :=
  events (snd (migrateWith c_json env initial)).

(** The store handle the handler works on, when it gets one. *)
Definition opened (env : Env) : option Realm.t :=
  match database env, writeError env with
  | inr (Some (FileEntry file)), None =>
      match openDeclared file, openSchemaless file with
      | inr realm, _ => Some realm
      | inl _, inr realm => Some realm
      | inl _, inl _ => None
      end
  | _, _ => None
  end.

(** ** The store handle, read off a trace *)

Inductive handle := Idle | Open | Closed | Misused.

Definition handleStep (h : handle) (ev : Event) : handle :=
  match ev, h with
  | EvOpen _ true, Idle => Open
  | EvOpen _ true, _ => Misused
  | EvClose, Open => Closed
  | EvClose, _ => Misused
  | _, _ => h
  end.

Definition handleAfter (evs : list Event) : handle := foldl handleStep Idle evs.

Definition closes (evs : list Event) : nat :=
  length (List.filter (λ ev, match ev with EvClose => true | _ => false end) evs).

(** ** Vocabulary for the statements *)

(** What a collection of the snapshot holds after an assignment that
    either happened or was skipped by a throw. *)
Definition collected {A} (r : Res (list A)) : list A :=
  match r with inr l => l | inl _ => [] end.

Definition collectedMap {V} (r : Res (gmap string V)) : gmap string V :=
  match r with inr m => m | inl _ => ∅ end.

Definition succeeded {A} (r : Res A) : bool :=
  match r with inr _ => true | inl _ => false end.

(** The error the inner [catch] receives, if any: the first failure in
    the order of the block. *)
Definition firstFailure (realm : Realm.t) : option JS.exn :=
  match favoriteUuids realm "FavoritedTrack" with
  | inl e => Some e
  | inr _ =>
  match favoriteUuids realm "FavoritedShow" with
  | inl e => Some e
  | inr _ =>
  match favoriteSources realm with
  | inl e => Some e
  | inr _ =>
  match favoriteUuids realm "FavoritedArtist" with
  | inl e => Some e
  | inr _ =>
  match offlineTracks realm with
  | inl e => Some e
  | inr _ => None
  end end end end end.

(** The open attempts a file goes through. *)
Definition openEvents (file : File) : list Event :=
  match openDeclared file with
  | inr _ => [EvOpen withDeclaredSchema true]
  | inl _ => [EvOpen withDeclaredSchema false;
              EvOpen withoutSchema (succeeded (openSchemaless file))]
  end.

(** The snapshot the handler builds from an opened store: a collection
    is filled when its own expression and those before it in the block
    evaluate without throwing ([migrate_opened]). *)
Definition snapshot (realm : Realm.t) : LegacyData :=
  let t := favoriteUuids realm "FavoritedTrack" in
  let s := favoriteUuids realm "FavoritedShow" in
  let c := favoriteSources realm in
  let a := favoriteUuids realm "FavoritedArtist" in
  let o := offlineTracks realm in
  {| trackUuids := collected t;
     showUuids := if succeeded t then collected s else [];
     sources := if succeeded t && succeeded s then collected c else [];
     artistUuids :=
       if succeeded t && succeeded s && succeeded c then collected a else [];
     offlineTracksBySource :=
       if succeeded t && succeeded s && succeeded c && succeeded a
       then collectedMap o else ∅;
     schemaVersion := Realm.schemaVersion realm |}.

Definition isLower (s : string) : Prop := JS.toLowerCase s = s.


(** The tables the extraction block reads. *)
Definition readTables : list string :=
  ["FavoritedTrack"; "FavoritedShow"; "FavoritedSource"; "FavoritedArtist";
   "OfflineTrack"].

(** The block gets as far as reading the offline tracks: the four
    assignments before it went through. *)
Definition reachesOfflineTracks (realm : Realm.t) : Prop :=
  succeeded (favoriteUuids realm "FavoritedTrack") = true
  ∧ succeeded (favoriteUuids realm "FavoritedShow") = true
  ∧ succeeded (favoriteSources realm) = true
  ∧ succeeded (favoriteUuids realm "FavoritedArtist") = true.

(** The identifier properties of an offline track object are strings. *)
Definition stringIdentifiers (o : Row) : Prop :=
  ∃ t a s c,
    prop o "track_uuid" = JS.VString t ∧ prop o "artist_uuid" = JS.VString a
    ∧ prop o "show_uuid" = JS.VString s ∧ prop o "source_uuid" = JS.VString c.

(** The primary keys of a table stay distinct when lowercased. *)
Definition distinctLowercased (realm : Realm.t) (table : string) : Prop :=
  ∀ rows, Realm.tables realm !! table = Some rows →
    NoDup ((λ o, JS.callToLowerCase (prop o "uuid")) <$> rows).

(** The identifiers of an emitted record are in lowercase form. *)
Definition lowerSource (src : Source.t) : Prop :=
  isLower (Source.uuid src) ∧ isLower (Source.artist_uuid src)
  ∧ isLower (Source.show_uuid src).

Definition lowerOfflineTrack (t : OfflineTrack.t) : Prop :=
  isLower (OfflineTrack.track_uuid t) ∧ isLower (OfflineTrack.artist_uuid t)
  ∧ isLower (OfflineTrack.show_uuid t) ∧ isLower (OfflineTrack.source_uuid t).

(** [id] is the lowercased [uuid] of the object [o]. *)
Definition lowercasedUuid (o : Row) (id : string) : Prop :=
  ∃ s, prop o "uuid" = JS.VString s ∧ id = JS.toLowerCase s.

(** [ids] holds one lowercased [uuid] per object of the table. *)
Definition populatedFrom (realm : Realm.t) (table : string) (ids : list string)
  : Prop :=
  ∃ rows raw,
    Realm.tables realm !! table = Some rows
    ∧ Forall2 lowercasedUuid rows raw
    ∧ ids ≡ₚ raw.

(** The store holds the table, and every object of it carries each of
    the named properties as a string: what [toLowerCase] needs. *)
Definition holdsIdentifiers (realm : Realm.t) (table : string)
    (props : list string) : Prop :=
  ∃ rows,
    Realm.tables realm !! table = Some rows
    ∧ Forall (λ o, Forall (λ p, ∃ s, prop o p = JS.VString s) props) rows.

Definition isOpenAttempt (ev : Event) : bool :=
  match ev with EvOpen _ _ => true | _ => false end.

Definition openAttempts (evs : list Event) : list Event :=
  List.filter isOpenAttempt evs.

(** ** Sample stores and requests *)

Module Sample.

Definition row (l : list (string * JS.value)) : Row := list_to_map l.

Definition store (version : Z) (l : list (string * list Row)) : Realm.t :=
  {| Realm.schemaVersion := version; Realm.tables := list_to_map l |}.

(** A file by what it yields with and without a declared schema. *)
Definition file (declared schemaless : Res Realm.t) : File :=
  {| openWith := λ config,
       match schema config with Some _ => declared | None => schemaless end |}.

(** A request carrying a file that opens against the declared schema. *)
Definition upload (realm : Realm.t) : Env :=
  {| database := inr (Some (FileEntry (file (inr realm) (inr realm))));
     now := 1700000000000;
     writeError := None;
     unlinkError := None |}.

(** A request carrying a file that only opens without a schema. *)
Definition uploadLegacy (realm : Realm.t) : Env :=
  {| database :=
       inr (Some (FileEntry (file (inl (JS.Error "schema mismatch"))
                                  (inr realm))));
     now := 1700000000000;
     writeError := None;
     unlinkError := None |}.

Definition artist : Row :=
  row [("uuid", JS.VString "artist-123"); ("created_at", JS.VDate 1689379200000)].

Definition show : Row :=
  row [("uuid", JS.VString "show-456"); ("created_at", JS.VDate 1689379200000);
       ("show_date", JS.VDate 1689379200000);
       ("artist_uuid", JS.VString "artist-123")].

Definition source : Row :=
  row [("uuid", JS.VString "source-789"); ("created_at", JS.VDate 1689379200000);
       ("artist_uuid", JS.VString "artist-123");
       ("show_uuid", JS.VString "show-456");
       ("show_date", JS.VDate 1689379200000)].

Definition track (uuid : string) : Row :=
  row [("uuid", JS.VString uuid); ("created_at", JS.VDate 1689379200000);
       ("artist_uuid", JS.VString "artist-123");
       ("show_uuid", JS.VString "show-456");
       ("source_uuid", JS.VString "source-789")].

Definition offlineTrack (source_uuid : string) : Row :=
  row [("track_uuid", JS.VString "offline-track-202");
       ("artist_uuid", JS.VString "artist-123");
       ("show_uuid", JS.VString "show-456");
       ("source_uuid", JS.VString source_uuid);
       ("created_at", JS.VDate 1689379200000);
       ("state", JS.VNumber 3);
       ("file_size", JS.VNumber 5242880)].

Definition recentlyPlayed : Row :=
  row [("uuid", JS.VString "played-1"); ("created_at", JS.VDate 1689379200000);
       ("artist_uuid", JS.VString "artist-123");
       ("show_uuid", JS.VString "show-456");
       ("source_uuid", JS.VString "source-789");
       ("track_uuid", JS.VString "track-101");
       ("updated_at", JS.VDate 1689379200000);
       ("past_halfway", JS.VBool true)].

(** The store written by [generate-test-db.js]. *)
Definition v9 : Realm.t :=
  store 9 [("FavoritedArtist", [artist]); ("FavoritedShow", [show]);
           ("FavoritedSource", [source]); ("FavoritedTrack", [track "track-101"]);
           ("OfflineTrack", [offlineTrack "source-789"])].

(** The same store with playback history and offline sources. *)
Definition v9Played : Realm.t :=
  store 9 [("FavoritedArtist", [artist]); ("FavoritedShow", [show]);
           ("FavoritedSource", [source]); ("FavoritedTrack", [track "track-101"]);
           ("OfflineTrack", [offlineTrack "source-789"]);
           ("RecentlyPlayedTrack", [recentlyPlayed]);
           ("OfflineSource", [])].

(** An older store: favorites only. *)
Definition favoritesOnly : Realm.t :=
  store 3 [("FavoritedArtist", [artist]); ("FavoritedShow", [show]);
           ("FavoritedSource", [source]); ("FavoritedTrack", [track "track-101"])].

(** A store without the [FavoritedTrack] type. *)
Definition noTracks : Realm.t :=
  store 2 [("FavoritedArtist", [artist]); ("FavoritedShow", [show]);
           ("FavoritedSource", [source])].

(** Two favorited tracks whose keys differ only in case. *)
Definition caseTwins : Realm.t :=
  store 9 [("FavoritedArtist", []); ("FavoritedShow", []);
           ("FavoritedSource", []);
           ("FavoritedTrack", [track "A"; track "a"]);
           ("RecentlyPlayedTrack", []); ("OfflineTrack", []);
           ("OfflineSource", [])].

(** A downloaded offline track whose object lacks [show_uuid]. *)
Definition offlineWithoutShow : Row :=
  row [("track_uuid", JS.VString "offline-track-202");
       ("artist_uuid", JS.VString "artist-123");
       ("source_uuid", JS.VString "source-789");
       ("state", JS.VNumber 3)].

Definition partialOffline : Realm.t :=
  store 4 [("FavoritedArtist", []); ("FavoritedShow", []);
           ("FavoritedSource", []); ("FavoritedTrack", []);
           ("OfflineTrack", [offlineWithoutShow])].

(** A [c.json] that cannot serialise the success body. *)
Definition unserializable (body : Body) (status : Z) : Res Response :=
  match body with
  | SuccessBody _ _ => inl (JS.Error "cannot serialize")
  | _ => inr (json body status)
  end.

(** A downloaded offline track whose source is named [constructor]. *)
Definition constructorSource : Realm.t :=
  store 9 [("FavoritedArtist", []); ("FavoritedShow", []);
           ("FavoritedSource", []); ("FavoritedTrack", []);
           ("OfflineTrack", [offlineTrack "constructor"])].

Definition artistNamed (uuid : string) : Row :=
  row [("uuid", JS.VString uuid); ("created_at", JS.VDate 1689379200000)].

Definition showNamed (uuid : string) : Row :=
  row [("uuid", JS.VString uuid); ("created_at", JS.VDate 1689379200000);
       ("show_date", JS.VDate 1689379200000);
       ("artist_uuid", JS.VString "artist-123")].

(** Several favorites per kind, with keys in mixed case and stored out
    of order. *)
Definition mixedCase : Realm.t :=
  store 9 [("FavoritedArtist",
            [artistNamed "Phish"; artistNamed "grateful-dead";
             artistNamed "Billy Strings"]);
           ("FavoritedShow", [showNamed "SHOW-9"; showNamed "show-10"]);
           ("FavoritedSource", [source]);
           ("FavoritedTrack", [track "Zeta"; track "B"; track "alpha"]);
           ("OfflineTrack", [])].

(** An older store whose objects carry identifiers only: no dates, and
    no offline tables. *)
Definition identifiersOnly : Realm.t :=
  store 3 [("FavoritedArtist",
            [row [("uuid", JS.VString "Artist-2")];
             row [("uuid", JS.VString "artist-1")]]);
           ("FavoritedShow", [row [("uuid", JS.VString "Show-1")]]);
           ("FavoritedSource",
            [row [("uuid", JS.VString "Source-B");
                  ("artist_uuid", JS.VString "Artist-2");
                  ("show_uuid", JS.VString "Show-1")];
             row [("uuid", JS.VString "source-a");
                  ("artist_uuid", JS.VString "artist-1");
                  ("show_uuid", JS.VString "Show-1");
                  ("show_date", JS.VDate 1689379200000)]]);
           ("FavoritedTrack",
            [row [("uuid", JS.VString "T2")];
             row [("uuid", JS.VString "t1")]])].

(** An older store whose favorited sources have no [show_uuid]. *)
Definition sourceWithoutShow : Row :=
  row [("uuid", JS.VString "source-789"); ("created_at", JS.VDate 1689379200000);
       ("artist_uuid", JS.VString "artist-123")].

Definition sourcesWithoutShow : Realm.t :=
  store 3 [("FavoritedArtist", [artist]); ("FavoritedShow", [show]);
           ("FavoritedSource", [sourceWithoutShow]);
           ("FavoritedTrack", [track "track-101"])].

End Sample.

(** ** Vocabulary for the wider properties *)

(** The effects on the temporary input. *)
Definition isFileEvent (ev : Event) : bool :=
  match ev with EvWriteFile _ _ | EvUnlink _ _ => true | _ => false end.

Definition fileEvents (evs : list Event) : list Event :=
  List.filter isFileEvent evs.

(** The warnings of the inner [catch]. *)
Definition isWarning (ev : Event) : bool :=
  match ev with EvConsoleWarn _ => true | _ => false end.

Definition warnings (evs : list Event) : list Event :=
  List.filter isWarning evs.

(** The errors logged with [console.error]. *)
Definition errorsLogged (evs : list Event) : list JS.exn :=
  omap (λ ev, match ev with EvConsoleError e => Some e | _ => None end) evs.

(** All records of a mapping, group after group. *)
Definition grouped {A} (m : gmap string (list A)) : list A :=
  mjoin ((map_to_list m).*2).

(** A request that differs from [env] at most in how [unlinkSync]
    behaves. *)
Definition withUnlinkError (e : option JS.exn) (env : Env) : Env :=
  {| database := database env; now := now env; writeError := writeError env;
     unlinkError := e |}.

(** ** More sample requests *)

Module Requests.

(** A form without a [database] entry. *)
Definition empty : Env :=
  {| database := inr None; now := 1700000000000; writeError := None;
     unlinkError := Some (JS.Error "ENOENT") |}.

(** A form that cannot be parsed. *)
Definition malformed : Env :=
  {| database := inl (JS.Error "Unexpected end of form");
     now := 1700000000000; writeError := None; unlinkError := None |}.

(** An upload that cannot be written to the temporary directory. *)
Definition diskFull : Env :=
  {| database :=
       inr (Some (FileEntry (Sample.file (inr Sample.v9) (inr Sample.v9))));
     now := 1700000000000; writeError := Some (JS.Error "ENOSPC");
     unlinkError := Some (JS.Error "ENOENT") |}.

(** An upload that is no Realm file. *)
Definition garbage : Env :=
  {| database :=
       inr (Some (FileEntry (Sample.file (inl (JS.Error "invalid"))
                                         (inl (JS.Error "invalid")))));
     now := 1700000000000; writeError := None; unlinkError := None |}.

(** A form whose [database] entry is a plain text field, not a file:
    nothing is written, so the later removal finds no file. *)
Definition textField : Env :=
  {| database := inr (Some (TextEntry "v9.realm"));
     now := 1700000000000; writeError := None;
     unlinkError := Some (JS.Error "ENOENT") |}.

(** A form whose [database] entry is the empty string. *)
Definition emptyField : Env :=
  {| database := inr (Some (TextEntry ""));
     now := 1700000000000; writeError := None; unlinkError := None |}.

End Requests.

(** ** The copy of the route in the test suite *)

(** The [schema] array of the copy: the declared schema without
    [RecentlyPlayedTrack] and [OfflineSource]. *)
Definition testSchema : list ObjectSchema :=
  [FavoritedArtistSchema; FavoritedShowSchema; FavoritedSourceSchema;
   FavoritedTrackSchema; OfflineTrackSchema].

Definition withTestSchema : Configuration :=
  {| readOnly := true; schema := Some testSchema |}.

Section test_route.

Variable c_json : Body → Z → Res Response.

(** The handler as the test suite repeats it: the shorter schema array,
    and no [console.error] when both opens fail. *)
Definition migrateTestCopy (env : Env) : M unit :=
  tryFinally
    (tryCatch
       (databaseFile ← liftRes (database env);
        match databaseFile with
        | None | Some (TextEntry EmptyString) =>
            returnJson c_json (ErrorBody "Database file is required") 400
        | Some entry =>
            let timestamp := now env in
            setTempInputPath (Some timestamp);;
            file ← liftRes (arrayBuffer entry);
            writeFileSync env timestamp;;
            realm ← tryCatch (newRealm file withTestSchema)
                      (λ _, tryCatch (newRealm file withoutSchema)
                         (λ _,
                            returnJson c_json
                              (ErrorBody "Unable to read database or unsupported version")
                              400));
            updLegacyData (λ _,
              {| trackUuids := []; showUuids := []; sources := [];
                 artistUuids := []; offlineTracksBySource := ∅;
                 schemaVersion := Realm.schemaVersion realm |});;
            tryCatch (extraction realm)
                     (λ error, emit (EvConsoleWarn error));;
            emit EvClose;;
            legacyData ← getLegacyData;
            returnJson c_json (SuccessBody legacyData (isEmptyOf legacyData)) 200
        end)
       (λ error,
          emit (EvConsoleError error);;
          returnJson c_json
            (ErrorDetailsBody "Database parsing failed" (JS.message error)) 500))
    (tryCatch
       (path ← getTempInputPath;
        match path with
        | Some p => unlinkSync env p
        | None => mret ()
        end)
       (λ _, mret ())).

End test_route.

Definition responseTestCopy (c_json : Body → Z → Res Response) (env : Env)
  : option Response :=
  match migrateTestCopy c_json env initial with
  | (Return r, _) => Some r
  | _ => None
  end.

Definition traceTestCopy (c_json : Body → Z → Res Response) (env : Env)
  : list Event :=
  events (snd (migrateTestCopy c_json env initial)).

(** Whether each open attempt of a trace succeeded. *)
Definition openOutcomes (evs : list Event) : list bool :=
  omap (λ ev, match ev with EvOpen _ ok => Some ok | _ => None end) evs.

(** ** The generator of the test database *)

Module Writer.

(** A Realm opened for writing: the schema it was opened with and the
    objects it holds. *)
Record t := {
  schemas : list ObjectSchema;
  realm : Realm.t
}.

(** [new Realm({ path, schema, schemaVersion })] on a path that holds no
    file yet: every declared type starts without objects. *)
Definition newRealm (schema : list ObjectSchema) (schemaVersion : Z) : t :=
  {| schemas := schema;
     realm := {| Realm.schemaVersion := schemaVersion;
                 Realm.tables := list_to_map ((λ s, (name s, [])) <$> schema) |} |}.

(** The value stored for a declared property: the one given, if it has
    the declared type; [null] for an optional property left out. *)
Definition storedValue (values : Row) (p : string) (ty : propType) : Res JS.value :=
  match prop values p, ty with
  | JS.VUndefined, TIntOpt => inr JS.VNull
  | JS.VUndefined, _ => inl (JS.Error "Missing value for property")
  | v, _ => if hasType v ty then inr v
            else inl (JS.Error "Property must be of the declared type")
  end.

(** [realm.create(name, values)] *)
Definition create (type : string) (values : list (string * JS.value)) (w : t)
  : Res t :=
  match List.find (λ s, String.eqb (name s) type) (schemas w) with
  | None => inl (JS.Error "Object type not found in schema")
  | Some schema =>
      props ← mapRes (λ '(p, ty), v ← storedValue (list_to_map values) p ty;
                                  mret (p, v))
                     (properties schema);
      let o : Row := list_to_map props in
      let rows := default [] (Realm.tables (realm w) !! type) in
      if bool_decide (prop o (primaryKey schema)
                      ∈ (λ r, prop r (primaryKey schema)) <$> rows)
      then inl (JS.Error "Attempting to create an object with an existing primary key value")
      else inr {| schemas := schemas w;
                  realm := {| Realm.schemaVersion := Realm.schemaVersion (realm w);
                              Realm.tables :=
                                <[type := rows ++ [o]]> (Realm.tables (realm w)) |} |}
  end.

End Writer.

Module OfflineTrackStateOfGenerator.
Definition DOWNLOADED : Z := 3.
End OfflineTrackStateOfGenerator.

(** [generateTestDatabase()]: the store the written file holds.  [now]
    is the clock read by [new Date()]; [new Date('2023-07-15')] is
    1689379200000. *)
Definition generateTestDatabase (now : Z) : Res Realm.t :=
  let realm := Writer.newRealm testSchema 9 in
  let showDate := JS.VDate 1689379200000 in
  w ← Writer.create "FavoritedArtist"
        [("uuid", JS.VString "artist-123"); ("created_at", JS.VDate now)] realm;
  w ← Writer.create "FavoritedShow"
        [("uuid", JS.VString "show-456"); ("created_at", JS.VDate now);
         ("show_date", showDate); ("artist_uuid", JS.VString "artist-123")] w;
  w ← Writer.create "FavoritedSource"
        [("uuid", JS.VString "source-789"); ("created_at", JS.VDate now);
         ("artist_uuid", JS.VString "artist-123");
         ("show_uuid", JS.VString "show-456"); ("show_date", showDate)] w;
  w ← Writer.create "FavoritedTrack"
        [("uuid", JS.VString "track-101"); ("created_at", JS.VDate now);
         ("artist_uuid", JS.VString "artist-123");
         ("show_uuid", JS.VString "show-456");
         ("source_uuid", JS.VString "source-789")] w;
  w ← Writer.create "OfflineTrack"
        [("track_uuid", JS.VString "offline-track-202");
         ("artist_uuid", JS.VString "artist-123");
         ("show_uuid", JS.VString "show-456");
         ("source_uuid", JS.VString "source-789");
         ("created_at", JS.VDate now);
         ("state", JS.VNumber OfflineTrackStateOfGenerator.DOWNLOADED);
         ("file_size", JS.VNumber 5242880)] w;
  mret (Writer.realm w).

(** The store [generateTestDatabase] is meant to write, for a clock
    value. *)
Module Generated.

Definition artist (now : Z) : Row :=
  Sample.row [("uuid", JS.VString "artist-123"); ("created_at", JS.VDate now)].

Definition show (now : Z) : Row :=
  Sample.row [("uuid", JS.VString "show-456"); ("created_at", JS.VDate now);
              ("show_date", JS.VDate 1689379200000);
              ("artist_uuid", JS.VString "artist-123")].

Definition source (now : Z) : Row :=
  Sample.row [("uuid", JS.VString "source-789"); ("created_at", JS.VDate now);
              ("artist_uuid", JS.VString "artist-123");
              ("show_uuid", JS.VString "show-456");
              ("show_date", JS.VDate 1689379200000)].

Definition track (now : Z) : Row :=
  Sample.row [("uuid", JS.VString "track-101"); ("created_at", JS.VDate now);
              ("artist_uuid", JS.VString "artist-123");
              ("show_uuid", JS.VString "show-456");
              ("source_uuid", JS.VString "source-789")].

Definition offlineTrack (now : Z) : Row :=
  Sample.row [("track_uuid", JS.VString "offline-track-202");
              ("artist_uuid", JS.VString "artist-123");
              ("show_uuid", JS.VString "show-456");
              ("source_uuid", JS.VString "source-789");
              ("created_at", JS.VDate now);
              ("state", JS.VNumber 3);
              ("file_size", JS.VNumber 5242880)].

Definition store (now : Z) : Realm.t :=
  Sample.store 9 [("FavoritedArtist", [artist now]); ("FavoritedShow", [show now]);
                  ("FavoritedSource", [source now]);
                  ("FavoritedTrack", [track now]);
                  ("OfflineTrack", [offlineTrack now])].

(** What the test suite expects in [data] for that store. *)
Definition expected (now : Z) : LegacyData :=
  {| trackUuids := ["track-101"];
     showUuids := ["show-456"];
     sources :=
       [{| Source.uuid := "source-789";
           Source.created_at := JS.VDate now;
           Source.artist_uuid := "artist-123";
           Source.show_uuid := "show-456";
           Source.show_date := JS.VDate 1689379200000 |}];
     artistUuids := ["artist-123"];
     offlineTracksBySource :=
       {[ "source-789" :=
            [{| OfflineTrack.track_uuid := "offline-track-202";
                OfflineTrack.artist_uuid := "artist-123";
                OfflineTrack.show_uuid := "show-456";
                OfflineTrack.source_uuid := "source-789";
                OfflineTrack.created_at := JS.VDate now;
                OfflineTrack.state := JS.VNumber 3;
                OfflineTrack.file_size := JS.VNumber 5242880 |}] ]};
     schemaVersion := 9 |}.

End Generated.

(** ** Proof automation *)

(** Expose the control flow of the handler. *)
Ltac unfold_handler :=
  unfold migrate, migrateWith, returnJson, serialize, tryFinally, tryCatch,
    mbind, M_bind, writeFileSync, unlinkSync, newRealm.

(** No event of a concrete trace is a successful open. *)
Ltac no_successful_open :=
  let Hin := fresh "Hin" in
  intros ? Hin;
  repeat (apply elem_of_cons in Hin as [Hin|Hin]; [discriminate|]);
  by apply elem_of_nil in Hin.

(** A property is listed in a schema. *)
Ltac declared_property :=
  simpl; repeat first [apply list_elem_of_here | apply list_elem_of_further].

(** A concrete list has no duplicates. *)
Ltac distinct_results :=
  repeat (apply NoDup_cons_2;
          [ let Hin := fresh in
            intros Hin;
            repeat (apply elem_of_cons in Hin as [Hin|Hin]; [discriminate|]);
            by apply elem_of_nil in Hin
          | ]);
  apply NoDup_nil_2.

(** Every object of a sample table carries the named properties as
    strings. *)
Ltac holds_identifiers rows :=
  exists rows; split; [reflexivity|];
  repeat (constructor;
          [repeat (constructor; [eexists; reflexivity|]); constructor|]);
  constructor.

(** A one-object sample table follows its schema. *)
Ltac conforms_sample rows :=
  exists rows; split; [reflexivity|];
  split; [|vm_compute; apply NoDup_singleton];
  repeat (constructor;
          [repeat (constructor; [vm_compute; reflexivity|]); constructor|]);
  constructor.

(** * Properties *)

(** ** Runtime primitives *)

Section runtime_facts.

Lemma lowerUnit_idem (c : ascii) : JS.lowerUnit (JS.lowerUnit c) = JS.lowerUnit c.
Proof.
  destruct c as [[] [] [] [] [] [] [] []]; vm_compute; reflexivity.
Qed.

Lemma toLowerCase_idem (s : string) :
  JS.toLowerCase (JS.toLowerCase s) = JS.toLowerCase s.
Proof.
  induction s as [|c s IH]; simpl; [reflexivity|].
  by rewrite lowerUnit_idem, IH.
Qed.

Lemma callToLowerCase_inr (v : JS.value) (s : string) :
  JS.callToLowerCase v = inr s → ∃ s0, v = JS.VString s0 ∧ s = JS.toLowerCase s0.
Proof.
  destruct v; simpl; intros H; try discriminate.
  injection H as <-. eauto.
Qed.

Lemma ascii_compare_refl (c : ascii) : Ascii.compare c c = Eq.
Proof. unfold Ascii.compare. apply N.compare_refl. Qed.

Lemma ascii_compare_chain (a b c : ascii) :
  Ascii.compare a b ≠ Gt → Ascii.compare b c ≠ Gt →
  match Ascii.compare a c with
  | Eq => Ascii.compare a b = Eq ∧ Ascii.compare b c = Eq
  | Lt => True
  | Gt => False
  end.
Proof.
  unfold Ascii.compare.
  destruct (N.compare_spec (N_of_ascii a) (N_of_ascii b)) as [Hab|Hab|Hab];
    destruct (N.compare_spec (N_of_ascii b) (N_of_ascii c)) as [Hbc|Hbc|Hbc];
    destruct (N.compare_spec (N_of_ascii a) (N_of_ascii c)) as [Hac|Hac|Hac];
    intros H1 H2; try congruence; try exact I; try (split; reflexivity);
    exfalso; lia.
Qed.

Lemma string_compare_chain (a b c : string) :
  String.compare a b ≠ Gt → String.compare b c ≠ Gt → String.compare a c ≠ Gt.
Proof.
  revert b c. induction a as [|x a IH]; intros [|y b] [|z c]; simpl;
    try congruence.
  intros Hab Hbc.
  assert (Hxy : Ascii.compare x y ≠ Gt) by (destruct (Ascii.compare x y); congruence).
  assert (Hyz : Ascii.compare y z ≠ Gt) by (destruct (Ascii.compare y z); congruence).
  pose proof (ascii_compare_chain x y z Hxy Hyz) as Hxz.
  destruct (Ascii.compare x z); [|congruence|contradiction].
  destruct Hxz as [E1 E2]. rewrite E1 in Hab. rewrite E2 in Hbc.
  by apply (IH b c).
Qed.

#[global] Instance unit_le_total : Total JS.unit_le.
Proof. intros a b. apply String.leb_total. Qed.

#[global] Instance unit_le_antisymm : AntiSymm (=) JS.unit_le.
Proof. intros a b. apply String.leb_antisym. Qed.

#[global] Instance unit_le_trans : Transitive JS.unit_le.
Proof.
  intros a b c. unfold JS.unit_le, String.leb. intros Hab Hbc.
  pose proof (string_compare_chain a b c) as H.
  destruct (String.compare a b); try discriminate;
    destruct (String.compare b c); try discriminate;
    destruct (String.compare a c); try reflexivity;
    exfalso; apply H; congruence.
Qed.

Lemma sort_Sorted (l : list string) : StronglySorted JS.unit_le (JS.sort l).
Proof. apply StronglySorted_merge_sort; apply _. Qed.

Lemma sort_Permutation (l : list string) : JS.sort l ≡ₚ l.
Proof. apply merge_sort_Permutation. Qed.

(** Whatever algorithm the engine runs, a sorted rearrangement of the
    array is the one [JS.sort] computes. *)
Lemma sort_any_algorithm (l l' : list string) :
  Sorted JS.unit_le l' → l' ≡ₚ l → l' = JS.sort l.
Proof.
  intros Hs Hp. apply (Sorted_unique JS.unit_le); [done| |].
  - apply Sorted_merge_sort; apply _.
  - by rewrite Hp, sort_Permutation.
Qed.

End runtime_facts.

(** ** Running the handler *)

Section handler_facts.

(** The inner [try] block: it throws the first failure, and the
    assignments before it stay in place. *)
Lemma extraction_run (realm : Realm.t) (st : State) :
  extraction realm st =
  (match firstFailure realm with Some e => Throw e | None => Normal () end,
   let t := favoriteUuids realm "FavoritedTrack" in
   let s := favoriteUuids realm "FavoritedShow" in
   let c := favoriteSources realm in
   let a := favoriteUuids realm "FavoritedArtist" in
   let o := offlineTracks realm in
   let d := legacyData st in
   {| tempInputPath := tempInputPath st;
      legacyData :=
        {| trackUuids := if succeeded t then collected t else trackUuids d;
           showUuids :=
             if succeeded t && succeeded s then collected s else showUuids d;
           sources :=
             if succeeded t && succeeded s && succeeded c then collected c
             else sources d;
           artistUuids :=
             if succeeded t && succeeded s && succeeded c && succeeded a
             then collected a else artistUuids d;
           offlineTracksBySource :=
             if succeeded t && succeeded s && succeeded c && succeeded a
                && succeeded o
             then collectedMap o else offlineTracksBySource d;
           schemaVersion := schemaVersion d |};
      events := events st |}).
Proof.
  unfold extraction, firstFailure.
  destruct st as [p [tu su sc au ot sv] evs].
  unfold mbind, M_bind, liftRes, throw, mret, M_ret, updLegacyData; simpl.
  destruct (favoriteUuids realm "FavoritedTrack") as [e|t]; simpl; [done|].
  destruct (favoriteUuids realm "FavoritedShow") as [e|s]; simpl; [done|].
  destruct (favoriteSources realm) as [e|c]; simpl; [done|].
  destruct (favoriteUuids realm "FavoritedArtist") as [e|a]; simpl; [done|].
  destruct (offlineTracks realm) as [e|o]; simpl; done.
Qed.

Lemma snapshot_unfold (realm : Realm.t) :
  snapshot realm =
  let t := favoriteUuids realm "FavoritedTrack" in
  let s := favoriteUuids realm "FavoritedShow" in
  let c := favoriteSources realm in
  let a := favoriteUuids realm "FavoritedArtist" in
  let o := offlineTracks realm in
  {| trackUuids := if succeeded t then collected t else [];
     showUuids := if succeeded t && succeeded s then collected s else [];
     sources :=
       if succeeded t && succeeded s && succeeded c then collected c else [];
     artistUuids :=
       if succeeded t && succeeded s && succeeded c && succeeded a
       then collected a else [];
     offlineTracksBySource :=
       if succeeded t && succeeded s && succeeded c && succeeded a
          && succeeded o
       then collectedMap o else ∅;
     schemaVersion := Realm.schemaVersion realm |}.
Proof.
  unfold snapshot; simpl.
  destruct (favoriteUuids realm "FavoritedTrack"); simpl; [done|].
  destruct (favoriteUuids realm "FavoritedShow"); simpl; [done|].
  destruct (favoriteSources realm); simpl; [done|].
  destruct (favoriteUuids realm "FavoritedArtist"); simpl; [done|].
  destruct (offlineTracks realm); simpl; done.
Qed.

Lemma migrate_opened (env : Env) (file : File) (realm : Realm.t) :
  database env = inr (Some (FileEntry file)) →
  writeError env = None →
  (openDeclared file = inr realm
   ∨ (∃ e, openDeclared file = inl e) ∧ openSchemaless file = inr realm) →
  migrate env initial =
  (Return (json (SuccessBody (snapshot realm) (isEmptyOf (snapshot realm))) 200),
   {| tempInputPath := Some (now env);
      legacyData := snapshot realm;
      events :=
        [EvWriteFile (now env) true] ++ openEvents file
        ++ match firstFailure realm with
           | Some e => [EvConsoleWarn e]
           | None => []
           end
        ++ [EvClose; EvUnlink (now env) (bool_decide (unlinkError env = None))] |}).
Proof.
  intros Hdb Hw Hopen.
  rewrite snapshot_unfold.
  unfold_handler. unfold openEvents.
  rewrite Hdb, Hw. simpl.
  destruct Hopen as [Ho|[[e Ho] Hs]]; rewrite Ho; [|rewrite Hs]; simpl;
    rewrite extraction_run; simpl;
    destruct (firstFailure realm); simpl;
    destruct (unlinkError env); simpl; reflexivity.
Qed.


Lemma opened_Some (env : Env) (realm : Realm.t) :
  opened env = Some realm →
  ∃ file, database env = inr (Some (FileEntry file)) ∧ writeError env = None
    ∧ (openDeclared file = inr realm
       ∨ (∃ e, openDeclared file = inl e) ∧ openSchemaless file = inr realm).
Proof.
  unfold opened.
  destruct (database env) as [|[[file|text]|]] eqn:Hdb; try discriminate.
  destruct (writeError env) eqn:Hw; try discriminate.
  destruct (openDeclared file) as [e|r] eqn:Hd.
  - destruct (openSchemaless file) as [|r] eqn:Hs; [discriminate|].
    intros [= <-]. exists file. split_and!; [done..|]. right. eauto.
  - intros [= <-]. exists file. split_and!; [done..|]. by left.
Qed.

(** Without a file the handler answers 400 and touches nothing. *)
Lemma migrate_missing (env : Env) :
  database env = inr None →
  migrate env initial =
  (Return (json (ErrorBody "Database file is required") 400), initial).
Proof.
  intros Hdb.
  unfold_handler.
  rewrite Hdb. reflexivity.
Qed.

(** A request whose form cannot be parsed ends in the outer [catch]. *)
Lemma migrate_form_throws (env : Env) (e : JS.exn) :
  database env = inl e →
  migrate env initial =
  (Return (json (ErrorDetailsBody "Database parsing failed" (JS.message e)) 500),
   {| tempInputPath := None; legacyData := legacyData initial;
      events := [EvConsoleError e] |}).
Proof.
  intros Hdb.
  unfold_handler.
  rewrite Hdb. reflexivity.
Qed.

(** A failed write of the temporary input ends in the outer [catch];
    the [finally] block still removes the path. *)
Lemma migrate_write_throws (env : Env) (file : File) (e : JS.exn) :
  database env = inr (Some (FileEntry file)) →
  writeError env = Some e →
  migrate env initial =
  (Return (json (ErrorDetailsBody "Database parsing failed" (JS.message e)) 500),
   {| tempInputPath := Some (now env); legacyData := legacyData initial;
      events := [EvWriteFile (now env) false; EvConsoleError e;
                 EvUnlink (now env) (bool_decide (unlinkError env = None))] |}).
Proof.
  intros Hdb Hw.
  unfold_handler.
  rewrite Hdb, Hw. simpl.
  destruct (unlinkError env); reflexivity.
Qed.

(** Both open attempts fail: the only hard stop. *)
Lemma migrate_unreadable (env : Env) (file : File) (e1 e2 : JS.exn) :
  database env = inr (Some (FileEntry file)) →
  writeError env = None →
  openDeclared file = inl e1 →
  openSchemaless file = inl e2 →
  migrate env initial =
  (Return (json (ErrorBody "Unable to read database or unsupported version") 400),
   {| tempInputPath := Some (now env); legacyData := legacyData initial;
      events := [EvWriteFile (now env) true; EvOpen withDeclaredSchema false;
                 EvOpen withoutSchema false; EvConsoleError e2;
                 EvUnlink (now env) (bool_decide (unlinkError env = None))] |}).
Proof.
  intros Hdb Hw Hd Hs.
  unfold_handler.
  rewrite Hdb, Hw. simpl. rewrite Hd, Hs. simpl.
  destruct (unlinkError env); reflexivity.
Qed.

(** When no store handle is obtained, the response is an error and the
    trace neither opens nor closes a handle. *)
Lemma migrate_not_opened (env : Env) :
  opened env = None →
  (∃ b st, response env = Some (json b st) ∧ st ≠ 200%Z
           ∧ ∀ data e, b ≠ SuccessBody data e)
  ∧ handleAfter (trace env) = Idle
  ∧ closes (trace env) = 0%nat
  ∧ ∀ d, EvOpen d true ∉ trace env.
Proof.
  unfold opened, response, trace.
  destruct (database env) as [e|[[file|text]|]] eqn:Hdb.
  - intros _. rewrite (migrate_form_throws env e Hdb). simpl.
    repeat split; [eauto 10|]. no_successful_open.
  - destruct (writeError env) as [e|] eqn:Hw.
    + intros _. rewrite (migrate_write_throws env file e Hdb Hw). simpl.
      repeat split; [eauto 10|]. no_successful_open.
    + destruct (openDeclared file) as [e1|] eqn:Hd; [|discriminate].
      destruct (openSchemaless file) as [e2|] eqn:Hs; [|discriminate].
      intros _. rewrite (migrate_unreadable env file e1 e2 Hdb Hw Hd Hs). simpl.
      repeat split; [eauto 10|]. no_successful_open.
  - intros _. unfold_handler. rewrite Hdb.
    destruct text; simpl; [|destruct (unlinkError env); simpl];
      (repeat split; [eauto 10|]; no_successful_open).
  - intros _. rewrite (migrate_missing env Hdb). simpl.
    repeat split; [eauto 10|]. no_successful_open.
Qed.

(** A store handle is obtained exactly when the trace shows a
    successful open. *)
Lemma opened_iff_trace (env : Env) :
  (∃ realm, opened env = Some realm) ↔ ∃ config, EvOpen config true ∈ trace env.
Proof.
  split.
  - intros [realm (file & Hdb & Hw & Hopen)%opened_Some].
    unfold trace. rewrite (migrate_opened env file realm Hdb Hw Hopen). simpl.
    unfold openEvents.
    destruct Hopen as [Hd|[[e Hd] Hs]]; rewrite Hd; [|rewrite Hs]; simpl.
    + exists withDeclaredSchema. apply list_elem_of_further, list_elem_of_here.
    + exists withoutSchema. do 2 apply list_elem_of_further.
      apply list_elem_of_here.
  - intros [config Hin]. destruct (opened env) as [realm|] eqn:Ho; [eauto|].
    destruct (migrate_not_opened env Ho) as (_ & _ & _ & Hno).
    by destruct (Hno config).
Qed.

(** With a store handle, the response is the 200 success carrying the
    snapshot of that store. *)
Lemma response_opened (env : Env) (realm : Realm.t) :
  opened env = Some realm →
  response env =
  Some (json (SuccessBody (snapshot realm) (isEmptyOf (snapshot realm))) 200).
Proof.
  intros (file & Hdb & Hw & Hopen)%opened_Some.
  unfold response. by rewrite (migrate_opened env file realm).
Qed.

Lemma response_success (env : Env) (data : LegacyData) (e : bool) (st : Z) :
  response env = Some (json (SuccessBody data e) st) →
  ∃ realm, opened env = Some realm ∧ data = snapshot realm
           ∧ e = isEmptyOf data ∧ st = 200%Z.
Proof.
  destruct (opened env) as [realm|] eqn:Ho.
  - rewrite (response_opened env realm Ho). intros [= <- <- <-]. eauto.
  - destruct (migrate_not_opened env Ho) as ((b & st' & Hr & _ & Hb) & _).
    rewrite Hr. intros [= -> _]. by destruct (Hb data e).
Qed.

End handler_facts.

(** ** aggregateBy *)

Section aggregateBy_facts.
Context {A : Type} (keySelector : A → string).

Implicit Types (result acc m : gmap string (list A)) (items : list A).

(** A key that is not inherited gets its list created on first use and
    appended to afterwards. *)
Lemma aggregateStep_plain result item :
  JS.inherited (keySelector item) = false →
  aggregateStep keySelector result item =
  inr (<[keySelector item :=
           default [] (result !! keySelector item) ++ [item]]> result).
Proof.
  intros Hk. unfold aggregateStep, getMember.
  destruct (result !! keySelector item) as [l|] eqn:Hl; simpl.
  - by rewrite Hl.
  - rewrite Hk; simpl. rewrite lookup_insert_eq. by rewrite insert_insert_eq.
Qed.

(** A key inherited from [Object.prototype] reads as truthy, no list is
    created, and the [push] call throws. *)
Lemma aggregateStep_inherited result item :
  JS.inherited (keySelector item) = true →
  result !! keySelector item = None →
  aggregateStep keySelector result item =
  inl (JS.Error "result[key].push is not a function").
Proof.
  intros Hk Hl. unfold aggregateStep, getMember.
  rewrite Hl, Hk; simpl. by rewrite ?Hl, ?Hk.
Qed.

Lemma foldRes_aggregate items acc :
  Forall (λ x, JS.inherited (keySelector x) = false) items →
  ∃ m, foldRes (aggregateStep keySelector) acc items = inr m
       ∧ ∀ k, m !! k =
              match acc !! k, filter (λ x, keySelector x = k) items with
              | None, [] => None
              | o, l => Some (default [] o ++ l)
              end.
Proof.
  intros Hitems. revert acc.
  induction Hitems as [|x items Hx _ IH]; intros acc; simpl.
  - exists acc. split; [done|]. intros k.
    destruct (acc !! k); simpl; [by rewrite app_nil_r|done].
  - rewrite (aggregateStep_plain acc x Hx). simpl.
    destruct (IH (<[keySelector x :=
                      default [] (acc !! keySelector x) ++ [x]]> acc))
      as (m & Hm & Hlook).
    exists m. split; [done|]. intros k. rewrite Hlook, filter_cons.
    destruct (decide (keySelector x = k)) as [<-|Hne].
    + rewrite lookup_insert_eq. simpl. rewrite <- app_assoc. simpl.
      by destruct (acc !! keySelector x).
    + by rewrite lookup_insert_ne.
Qed.

(** With no inherited key among the items, [aggregateBy] returns the
    partition of the items by key: under each key the items with that
    key, in their order, and no key with an empty list. *)
Lemma aggregateBy_partition items :
  Forall (λ x, JS.inherited (keySelector x) = false) items →
  ∃ m, aggregateBy keySelector items = inr m
       ∧ ∀ k, m !! k = match filter (λ x, keySelector x = k) items with
                       | [] => None
                       | l => Some l
                       end.
Proof.
  intros Hitems. destruct (foldRes_aggregate items ∅ Hitems) as (m & Hm & Hl).
  exists m. split; [done|]. intros k. rewrite Hl, lookup_empty. done.
Qed.

Lemma foldRes_aggregate_throws items acc :
  (∀ k, JS.inherited k = true → acc !! k = None) →
  Exists (λ x, JS.inherited (keySelector x) = true) items →
  foldRes (aggregateStep keySelector) acc items =
  inl (JS.Error "result[key].push is not a function").
Proof.
  revert acc. induction items as [|x items IH]; intros acc Hacc Hex.
  - by apply Exists_nil in Hex.
  - simpl. destruct (JS.inherited (keySelector x)) eqn:Hx.
    + by rewrite (aggregateStep_inherited acc x Hx (Hacc _ Hx)).
    + rewrite (aggregateStep_plain acc x Hx). simpl. apply IH.
      * intros k Hk. rewrite lookup_insert_ne; [by apply Hacc|congruence].
      * apply Exists_cons in Hex as [Hex|Hex]; [congruence|done].
Qed.

(** One item whose key is inherited makes the whole call throw. *)
Lemma aggregateBy_throws items :
  Exists (λ x, JS.inherited (keySelector x) = true) items →
  aggregateBy keySelector items =
  inl (JS.Error "result[key].push is not a function").
Proof. apply foldRes_aggregate_throws. intros k _. apply lookup_empty. Qed.

(** So a returned mapping is always the partition. *)
Lemma aggregateBy_inr items m :
  aggregateBy keySelector items = inr m →
  Forall (λ x, JS.inherited (keySelector x) = false) items
  ∧ ∀ k, m !! k = match filter (λ x, keySelector x = k) items with
                  | [] => None
                  | l => Some l
                  end.
Proof.
  intros Hm.
  assert (Hitems : Forall (λ x, JS.inherited (keySelector x) = false) items).
  { apply Forall_forall. intros x Hx.
    destruct (JS.inherited (keySelector x)) eqn:Hk; [|done].
    rewrite aggregateBy_throws in Hm; [done|].
    apply Exists_exists. eauto. }
  split; [done|].
  destruct (aggregateBy_partition items Hitems) as (m' & Hm' & Hl).
  rewrite Hm in Hm'. by injection Hm' as <-.
Qed.

End aggregateBy_facts.

(** ** The handler on sample requests *)

Example toLowerCase_mixed_case :
  JS.toLowerCase "Source-7F9A" = "source-7f9a".
Proof. reflexivity. Qed.

Example sort_by_code_unit :
  JS.sort ["track-2"; "B"; "a"; "track-101"] = ["B"; "a"; "track-101"; "track-2"].
Proof. vm_compute. reflexivity. Qed.

(** The store written by [generate-test-db.js] yields the response the
    tests expect. *)
Example generated_store_response :
  response (Sample.upload Sample.v9) =
  Some (json
    (SuccessBody
       {| trackUuids := ["track-101"];
          showUuids := ["show-456"];
          sources :=
            [{| Source.uuid := "source-789";
                Source.created_at := JS.VDate 1689379200000;
                Source.artist_uuid := "artist-123";
                Source.show_uuid := "show-456";
                Source.show_date := JS.VDate 1689379200000 |}];
          artistUuids := ["artist-123"];
          offlineTracksBySource :=
            {[ "source-789" :=
                 [{| OfflineTrack.track_uuid := "offline-track-202";
                     OfflineTrack.artist_uuid := "artist-123";
                     OfflineTrack.show_uuid := "show-456";
                     OfflineTrack.source_uuid := "source-789";
                     OfflineTrack.created_at := JS.VDate 1689379200000;
                     OfflineTrack.state := JS.VNumber 3;
                     OfflineTrack.file_size := JS.VNumber 5242880 |}] ]};
          schemaVersion := 9 |}
       false)
    200).
Proof. vm_compute. reflexivity. Qed.

Example generated_store_trace :
  trace (Sample.upload Sample.v9) =
  [EvWriteFile 1700000000000 true; EvOpen withDeclaredSchema true; EvClose;
   EvUnlink 1700000000000 true].
Proof. vm_compute. reflexivity. Qed.

Example missing_file_response :
  response {| database := inr None; now := 0; writeError := None;
              unlinkError := None |}
  = Some (json (ErrorBody "Database file is required") 400).
Proof. reflexivity. Qed.

Example invalid_file_response :
  response {| database :=
                inr (Some (FileEntry (Sample.file (inl (JS.Error "invalid"))
                                                  (inl (JS.Error "invalid")))));
              now := 0; writeError := None; unlinkError := None |}
  = Some (json (ErrorBody "Unable to read database or unsupported version") 400).
Proof. reflexivity. Qed.

(** A [database] entry that is a text field: the path is chosen, then
    [arrayBuffer] throws before anything is written, and the [finally]
    block asks for the removal of the path all the same. *)
Example text_field_response :
  response Requests.textField
  = Some (json (ErrorDetailsBody "Database parsing failed"
                  "databaseFile.arrayBuffer is not a function") 500).
Proof. reflexivity. Qed.

Example text_field_trace :
  trace Requests.textField
  = [EvConsoleError (JS.Error "databaseFile.arrayBuffer is not a function");
     EvUnlink 1700000000000 false].
Proof. reflexivity. Qed.

(** The empty string is falsy: the same answer as without an entry. *)
Example empty_field_response :
  response Requests.emptyField
  = Some (json (ErrorBody "Database file is required") 400)
  ∧ trace Requests.emptyField = [].
Proof. split; reflexivity. Qed.

(** The handler always resolves to a response. *)
Lemma response_total (env : Env) : ∃ r, response env = Some r.
Proof.
  destruct (opened env) as [realm|] eqn:Ho.
  - rewrite (response_opened env realm Ho). eauto.
  - destruct (migrate_not_opened env Ho) as ((b & st & Hr & _) & _). eauto.
Qed.

(** ** The expressions of the extraction block *)

Section extraction_facts.

Lemma mapRes_inr {A B} (f : A → Res B) (l : list A) (ys : list B) :
  mapRes f l = inr ys ↔ Forall2 (λ x y, f x = inr y) l ys.
Proof.
  revert ys. induction l as [|x l IH]; intros ys; simpl.
  - split; [intros [= <-]; constructor|by inversion 1].
  - unfold mbind, Res_bind, mret, Res_ret.
    destruct (f x) as [e|y] eqn:Hx.
    + split; [done|]. inversion 1; congruence.
    + destruct (mapRes f l) as [e|ys'] eqn:Hl.
      * split; [done|]. inversion 1 as [|? y' ? ys'' _ Hrest]; subst.
        by apply IH in Hrest.
      * split.
        -- intros [= <-]. constructor; [done|by apply IH].
        -- inversion 1 as [|? y' ? ys'' Hy Hrest]; subst.
           apply IH in Hrest. congruence.
Qed.

Lemma favoriteUuids_inr (realm : Realm.t) (table : string) (ids : list string) :
  favoriteUuids realm table = inr ids ↔
  ∃ rows raw,
    Realm.tables realm !! table = Some rows
    ∧ Forall2 (λ o id, JS.callToLowerCase (prop o "uuid") = inr id) rows raw
    ∧ ids = JS.sort raw.
Proof.
  unfold favoriteUuids, objects, mbind, Res_bind, mret, Res_ret.
  destruct (Realm.tables realm !! table) as [rows|].
  - destruct (mapRes _ rows) as [e|raw] eqn:Hraw.
    + split; [done|]. intros (rows' & raw & [= <-] & Hall & _).
      apply mapRes_inr in Hall. congruence.
    + apply mapRes_inr in Hraw. split.
      * intros [= <-]. eauto.
      * intros (rows' & raw' & [= <-] & Hall & ->).
        apply mapRes_inr in Hraw, Hall. congruence.
  - split; [done|]. by intros (? & ? & ? & _).
Qed.

Lemma toSource_inr (o : Row) (src : Source.t) :
  toSource o = inr src ↔
  ∃ u a s,
    prop o "uuid" = JS.VString u ∧ prop o "artist_uuid" = JS.VString a
    ∧ prop o "show_uuid" = JS.VString s
    ∧ src = {| Source.uuid := JS.toLowerCase u;
               Source.created_at := prop o "created_at";
               Source.artist_uuid := JS.toLowerCase a;
               Source.show_uuid := JS.toLowerCase s;
               Source.show_date := prop o "show_date" |}.
Proof.
  unfold toSource, mbind, Res_bind, mret, Res_ret. split.
  - destruct (prop o "uuid"); simpl; try done.
    destruct (prop o "artist_uuid"); simpl; try done.
    destruct (prop o "show_uuid"); simpl; try done.
    intros [= <-]. eauto 10.
  - intros (u & a & s & -> & -> & -> & ->). done.
Qed.

Lemma toOfflineTrack_inr (o : Row) (t : OfflineTrack.t) :
  toOfflineTrack o = inr t ↔
  ∃ tr a s c,
    prop o "track_uuid" = JS.VString tr ∧ prop o "artist_uuid" = JS.VString a
    ∧ prop o "show_uuid" = JS.VString s ∧ prop o "source_uuid" = JS.VString c
    ∧ t = {| OfflineTrack.track_uuid := JS.toLowerCase tr;
             OfflineTrack.artist_uuid := JS.toLowerCase a;
             OfflineTrack.show_uuid := JS.toLowerCase s;
             OfflineTrack.source_uuid := JS.toLowerCase c;
             OfflineTrack.created_at := prop o "created_at";
             OfflineTrack.state := prop o "state";
             OfflineTrack.file_size := prop o "file_size" |}.
Proof.
  unfold toOfflineTrack, mbind, Res_bind, mret, Res_ret. split.
  - destruct (prop o "track_uuid"); simpl; try done.
    destruct (prop o "artist_uuid"); simpl; try done.
    destruct (prop o "show_uuid"); simpl; try done.
    destruct (prop o "source_uuid"); simpl; try done.
    intros [= <-]. eauto 12.
  - intros (tr & a & s & c & -> & -> & -> & -> & ->). done.
Qed.

Lemma favoriteSources_inr (realm : Realm.t) (srcs : list Source.t) :
  favoriteSources realm = inr srcs ↔
  ∃ rows, Realm.tables realm !! "FavoritedSource" = Some rows
          ∧ Forall2 (λ o src, toSource o = inr src) rows srcs.
Proof.
  unfold favoriteSources, objects, mbind, Res_bind.
  destruct (Realm.tables realm !! "FavoritedSource") as [rows|].
  - rewrite mapRes_inr. split; [eauto|]. by intros (? & [= <-] & ?).
  - split; [done|]. by intros (? & ? & _).
Qed.

Lemma offlineTracks_inr (realm : Realm.t) (m : gmap string (list OfflineTrack.t)) :
  offlineTracks realm = inr m ↔
  ∃ rows tracks,
    Realm.tables realm !! "OfflineTrack" = Some rows
    ∧ Forall2 (λ o t, toOfflineTrack o = inr t)
              (List.filter isDownloaded rows) tracks
    ∧ aggregateBy OfflineTrack.source_uuid tracks = inr m.
Proof.
  unfold offlineTracks, objects, downloadedTracks, mbind, Res_bind.
  destruct (Realm.tables realm !! "OfflineTrack") as [rows|].
  - destruct (mapRes _ _) as [e|tracks] eqn:Htracks.
    + split; [done|]. intros (? & tracks & [= <-] & Hall & _).
      apply mapRes_inr in Hall. congruence.
    + apply mapRes_inr in Htracks. split; [eauto|].
      intros (? & tracks' & [= <-] & Hall & Hagg).
      apply mapRes_inr in Htracks, Hall. congruence.
  - split; [done|]. by intros (? & ? & ? & _).
Qed.

(** Every collection of a snapshot is either what its expression
    evaluated to or empty. *)
Lemma snapshot_collections (realm : Realm.t) :
  (favoriteUuids realm "FavoritedTrack" = inr (trackUuids (snapshot realm))
   ∨ trackUuids (snapshot realm) = [])
  ∧ (favoriteUuids realm "FavoritedShow" = inr (showUuids (snapshot realm))
     ∨ showUuids (snapshot realm) = [])
  ∧ (favoriteSources realm = inr (sources (snapshot realm))
     ∨ sources (snapshot realm) = [])
  ∧ (favoriteUuids realm "FavoritedArtist" = inr (artistUuids (snapshot realm))
     ∨ artistUuids (snapshot realm) = [])
  ∧ (offlineTracks realm = inr (offlineTracksBySource (snapshot realm))
     ∨ offlineTracksBySource (snapshot realm) = ∅).
Proof.
  unfold snapshot; simpl.
  destruct (favoriteUuids realm "FavoritedTrack"); simpl; [tauto|].
  destruct (favoriteUuids realm "FavoritedShow"); simpl; [tauto|].
  destruct (favoriteSources realm); simpl; [tauto|].
  destruct (favoriteUuids realm "FavoritedArtist"); simpl; [tauto|].
  destruct (offlineTracks realm); simpl; tauto.
Qed.

End extraction_facts.

(** ** The emptiness flag *)

Lemma isEmptyOf_true (d : LegacyData) :
  isEmptyOf d = true ↔
  trackUuids d = [] ∧ showUuids d = [] ∧ artistUuids d = []
  ∧ sources d = [] ∧ offlineTracksBySource d = ∅.
Proof.
  unfold isEmptyOf. rewrite <- (map_to_list_empty_iff (offlineTracksBySource d)).
  destruct (trackUuids d), (showUuids d), (sources d), (artistUuids d),
    (map_to_list (offlineTracksBySource d)); simpl;
    (split; [try discriminate; done|intros (?&?&?&?&?); discriminate || done]).
Qed.

(** C5.  In every success response, [isEmpty] is true exactly when
    [trackUuids], [showUuids], [artistUuids], [sources] and
    [offlineTracksBySource] are all empty. *)
Theorem isEmpty_iff_all_empty (env : Env) (data : LegacyData) (isEmpty : bool)
    (st : Z) :
  response env = Some (json (SuccessBody data isEmpty) st) →
  isEmpty = true ↔
  trackUuids data = [] ∧ showUuids data = [] ∧ artistUuids data = []
  ∧ sources data = [] ∧ offlineTracksBySource data = ∅.
Proof.
  intros (realm & _ & _ & -> & _)%response_success. apply isEmptyOf_true.
Qed.

Lemma isEmpty_iff_all_empty_witness :
  response (Sample.upload Sample.v9)
  = Some (json (SuccessBody (snapshot Sample.v9) false) 200)
  ∧ (false = true ↔
     trackUuids (snapshot Sample.v9) = [] ∧ showUuids (snapshot Sample.v9) = []
     ∧ artistUuids (snapshot Sample.v9) = [] ∧ sources (snapshot Sample.v9) = []
     ∧ offlineTracksBySource (snapshot Sample.v9) = ∅).
Proof.
  assert (H : response (Sample.upload Sample.v9)
              = Some (json (SuccessBody (snapshot Sample.v9) false) 200))
    by (vm_compute; reflexivity).
  split; [exact H|].
  exact (isEmpty_iff_all_empty _ _ _ _ H).
Defined.

(** ** Opening the store *)

Lemma openAttempts_opened (env : Env) (file : File) (realm : Realm.t) :
  database env = inr (Some (FileEntry file)) →
  writeError env = None →
  (openDeclared file = inr realm
   ∨ (∃ e, openDeclared file = inl e) ∧ openSchemaless file = inr realm) →
  openAttempts (trace env) = openEvents file.
Proof.
  intros Hdb Hw Hopen. unfold trace.
  rewrite (migrate_opened env file realm Hdb Hw Hopen). simpl.
  unfold openAttempts, openEvents.
  destruct (openDeclared file), (firstFailure realm); reflexivity.
Qed.

(** C6.  Once the upload is on disk, the first open attempt declares
    the full schema; the schemaless attempt is made exactly when that
    one fails; the response is the 400 "Unable to read database or
    unsupported version" exactly when both attempts fail; and after
    either successful open the response is the 200 success, whatever
    the store holds. *)
Theorem open_fallback (env : Env) (file : File) :
  database env = inr (Some (FileEntry file)) →
  writeError env = None →
  (∀ realm, openDeclared file = inr realm →
     openAttempts (trace env) = [EvOpen withDeclaredSchema true]
     ∧ ∃ data isEmpty,
         response env = Some (json (SuccessBody data isEmpty) 200)
         ∧ schemaVersion data = Realm.schemaVersion realm)
  ∧ (∀ e realm, openDeclared file = inl e → openSchemaless file = inr realm →
       openAttempts (trace env)
       = [EvOpen withDeclaredSchema false; EvOpen withoutSchema true]
       ∧ ∃ data isEmpty,
           response env = Some (json (SuccessBody data isEmpty) 200)
           ∧ schemaVersion data = Realm.schemaVersion realm)
  ∧ (∀ e1 e2, openDeclared file = inl e1 → openSchemaless file = inl e2 →
       openAttempts (trace env)
       = [EvOpen withDeclaredSchema false; EvOpen withoutSchema false]
       ∧ response env
         = Some (json (ErrorBody "Unable to read database or unsupported version")
                      400))
  ∧ (response env
     = Some (json (ErrorBody "Unable to read database or unsupported version") 400) →
     succeeded (openDeclared file) = false
     ∧ succeeded (openSchemaless file) = false).
Proof.
  intros Hdb Hw.
  assert (Hok : ∀ realm,
    (openDeclared file = inr realm
     ∨ (∃ e, openDeclared file = inl e) ∧ openSchemaless file = inr realm) →
    openAttempts (trace env) = openEvents file
    ∧ response env
      = Some (json (SuccessBody (snapshot realm) (isEmptyOf (snapshot realm))) 200)).
  { intros realm Hopen. split; [by apply (openAttempts_opened env file realm)|].
    unfold response. by rewrite (migrate_opened env file realm). }
  assert (Hbad : ∀ e1 e2,
    openDeclared file = inl e1 → openSchemaless file = inl e2 →
    openAttempts (trace env)
    = [EvOpen withDeclaredSchema false; EvOpen withoutSchema false]
    ∧ response env
      = Some (json (ErrorBody "Unable to read database or unsupported version") 400)).
  { intros e1 e2 Hd Hs. unfold trace, response.
    by rewrite (migrate_unreadable env file e1 e2 Hdb Hw Hd Hs). }
  split_and!.
  - intros realm Hd. destruct (Hok realm) as [-> ->]; [by left|].
    unfold openEvents. rewrite Hd. eauto.
  - intros e realm Hd Hs. destruct (Hok realm) as [-> ->]; [right; eauto|].
    unfold openEvents. rewrite Hd, Hs. eauto.
  - exact Hbad.
  - intros Hr.
    destruct (openDeclared file) as [e1|realm] eqn:Hd.
    + destruct (openSchemaless file) as [e2|realm] eqn:Hs; [done|].
      destruct (Hok realm) as [_ Hr']; [right; eauto|]. congruence.
    + destruct (Hok realm) as [_ Hr']; [by left|]. congruence.
Qed.

Lemma open_fallback_witness :
  database (Sample.uploadLegacy Sample.favoritesOnly)
  = inr (Some (FileEntry (Sample.file (inl (JS.Error "schema mismatch"))
                           (inr Sample.favoritesOnly))))
  ∧ writeError (Sample.uploadLegacy Sample.favoritesOnly) = None
  ∧ openAttempts (trace (Sample.uploadLegacy Sample.favoritesOnly))
    = [EvOpen withDeclaredSchema false; EvOpen withoutSchema true]
  ∧ ∃ data isEmpty,
      response (Sample.uploadLegacy Sample.favoritesOnly)
      = Some (json (SuccessBody data isEmpty) 200)
      ∧ schemaVersion data = 3%Z.
Proof.
  split; [reflexivity|]. split; [reflexivity|].
  exact (proj1 (proj2 (open_fallback (Sample.uploadLegacy Sample.favoritesOnly) _
                         eq_refl eq_refl))
               (JS.Error "schema mismatch") Sample.favoritesOnly
               eq_refl eq_refl).
Defined.

(** ** Releasing the store handle *)

Lemma traceWith_handle (c_json : Body → Z → Res Response) (env : Env) :
  (∀ config, EvOpen config true ∉ traceWith c_json env)
  ∨ (handleAfter (traceWith c_json env) = Closed
     ∧ closes (traceWith c_json env) = 1%nat).
Proof.
  unfold traceWith. unfold_handler.
  destruct (database env) as [e|[[file|text]|]]; simpl.
  - destruct (c_json _ _); simpl; left; no_successful_open.
  - destruct (writeError env); simpl.
    + destruct (c_json _ _); simpl; destruct (unlinkError env); simpl;
        left; no_successful_open.
    + destruct (openWith file withDeclaredSchema) as [e1|realm]; simpl;
        [destruct (openWith file withoutSchema) as [e2|realm]; simpl|].
      * destruct (c_json (ErrorBody _) _); simpl;
          [destruct (c_json _ _); simpl|];
          destruct (unlinkError env); simpl; left; no_successful_open.
      * rewrite extraction_run; simpl. right.
        destruct (firstFailure realm); simpl;
          (destruct (c_json (SuccessBody _ _) _); simpl;
           [destruct (c_json _ _); simpl|]);
          destruct (unlinkError env); simpl; done.
      * rewrite extraction_run; simpl. right.
        destruct (firstFailure realm); simpl;
          (destruct (c_json (SuccessBody _ _) _); simpl;
           [destruct (c_json _ _); simpl|]);
          destruct (unlinkError env); simpl; done.
  - destruct text; simpl.
    + destruct (c_json (ErrorBody _) _); simpl;
        [destruct (c_json _ _); simpl|]; left; no_successful_open.
    + destruct (c_json _ _); simpl; destruct (unlinkError env); simpl;
        left; no_successful_open.
  - destruct (c_json (ErrorBody _) _); simpl;
      [destruct (c_json _ _); simpl|]; left; no_successful_open.
Qed.

(** C2.  Whenever an open attempt succeeds, with or without the declared
    schema, the handle has been closed, exactly once, by the time the
    handler completes.  This holds for every behaviour of [c.json]: when
    every collection is extracted, when the inner [catch] logs a
    warning, and when serialising the success body throws and the
    outer [catch] answers 500. *)
Theorem handle_released (c_json : Body → Z → Res Response) (env : Env)
    (config : Configuration) :
  EvOpen config true ∈ traceWith c_json env →
  handleAfter (traceWith c_json env) = Closed
  ∧ closes (traceWith c_json env) = 1%nat.
Proof.
  intros Hin. destruct (traceWith_handle c_json env) as [Hno|Hclosed]; [|done].
  by destruct (Hno config).
Qed.

Lemma handle_released_witness :
  EvOpen withoutSchema true
  ∈ traceWith Sample.unserializable (Sample.uploadLegacy Sample.noTracks)
  ∧ (∃ details,
       responseWith Sample.unserializable (Sample.uploadLegacy Sample.noTracks)
       = Some (json (ErrorDetailsBody "Database parsing failed" details) 500))
  ∧ handleAfter
      (traceWith Sample.unserializable (Sample.uploadLegacy Sample.noTracks))
    = Closed
  ∧ closes (traceWith Sample.unserializable (Sample.uploadLegacy Sample.noTracks))
    = 1%nat.
Proof.
  assert (H : EvOpen withoutSchema true
              ∈ traceWith Sample.unserializable
                  (Sample.uploadLegacy Sample.noTracks)).
  { vm_compute. do 2 apply list_elem_of_further. apply list_elem_of_here. }
  split; [exact H|]. split; [eexists; vm_compute; reflexivity|].
  exact (handle_released _ _ _ H).
Defined.

(** The deployed handler is the instance with the framework's
    [c.json]. *)
Lemma trace_deployed (env : Env) : trace env = traceWith serialize env.
Proof. reflexivity. Qed.

Lemma response_deployed (env : Env) : response env = responseWith serialize env.
Proof. reflexivity. Qed.

(** ** Tables the handler never reads *)

Lemma snapshot_ext (realm1 realm2 : Realm.t) :
  Realm.schemaVersion realm1 = Realm.schemaVersion realm2 →
  Forall (λ table, Realm.tables realm1 !! table = Realm.tables realm2 !! table)
         readTables →
  snapshot realm1 = snapshot realm2.
Proof.
  intros Hv Ht. unfold readTables in Ht.
  repeat match type of Ht with
         | Forall _ (_ :: _) => apply Forall_cons in Ht as [? Ht]
         end.
  unfold snapshot, favoriteUuids, favoriteSources, offlineTracks, objects.
  by repeat match goal with H : _ !! _ = _ !! _ |- _ => rewrite H; clear H end;
    rewrite Hv.
Qed.

(** [RecentlyPlayedTrack] and [OfflineSource] are declared for the
    first open attempt and are not among the tables the block reads. *)
Lemma declared_but_unread :
  RecentlyPlayedTrackSchema ∈ declaredSchema
  ∧ OfflineSourceSchema ∈ declaredSchema
  ∧ (name RecentlyPlayedTrackSchema ∉ readTables)
  ∧ (name OfflineSourceSchema ∉ readTables).
Proof.
  split_and!.
  - unfold declaredSchema. do 4 apply list_elem_of_further. apply list_elem_of_here.
  - unfold declaredSchema. do 6 apply list_elem_of_further. apply list_elem_of_here.
  - intros Hin. unfold readTables in Hin.
    repeat (apply elem_of_cons in Hin as [Hin|Hin]; [discriminate|]).
    by apply elem_of_nil in Hin.
  - intros Hin. unfold readTables in Hin.
    repeat (apply elem_of_cons in Hin as [Hin|Hin]; [discriminate|]).
    by apply elem_of_nil in Hin.
Qed.

(** C10.  Two opened stores with the same schema version and the same
    contents in the five tables the handler reads get the same
    response, however their [RecentlyPlayedTrack] and [OfflineSource]
    tables differ. *)
Theorem unread_tables_irrelevant (env1 env2 : Env) (realm1 realm2 : Realm.t) :
  opened env1 = Some realm1 →
  opened env2 = Some realm2 →
  Realm.schemaVersion realm1 = Realm.schemaVersion realm2 →
  Forall (λ table, Realm.tables realm1 !! table = Realm.tables realm2 !! table)
         readTables →
  response env1 = response env2.
Proof.
  intros H1 H2 Hv Ht.
  rewrite (response_opened env1 realm1 H1), (response_opened env2 realm2 H2).
  by rewrite (snapshot_ext realm1 realm2 Hv Ht).
Qed.

Lemma unread_tables_irrelevant_witness :
  Realm.tables Sample.v9 !! "RecentlyPlayedTrack" = None
  ∧ Realm.tables Sample.v9Played !! "RecentlyPlayedTrack"
    = Some [Sample.recentlyPlayed]
  ∧ response (Sample.upload Sample.v9) = response (Sample.upload Sample.v9Played).
Proof.
  split; [reflexivity|]. split; [reflexivity|].
  apply (unread_tables_irrelevant _ _ Sample.v9 Sample.v9Played).
  - reflexivity.
  - reflexivity.
  - reflexivity.
  - repeat (constructor; [reflexivity|]). constructor.
Defined.

(** ** One guarded block for the five collections *)

(** C1, as stated, fails: the store [Sample.noTracks] has no
    [FavoritedTrack] type and one favorited show; reading the shows
    would succeed, yet the response carries no show. *)
Lemma independent_extraction_counterexample :
  ¬ (∀ env realm data isEmpty st ids,
       opened env = Some realm →
       response env = Some (json (SuccessBody data isEmpty) st) →
       favoriteUuids realm "FavoritedShow" = inr ids →
       showUuids data = ids).
Proof.
  intros H.
  specialize (H (Sample.uploadLegacy Sample.noTracks) Sample.noTracks
                (snapshot Sample.noTracks) true 200%Z ["show-456"]).
  assert (Hshow : showUuids (snapshot Sample.noTracks) = ["show-456"]).
  { apply H; [reflexivity|vm_compute; reflexivity..]. }
  vm_compute in Hshow. discriminate.
Qed.

(** C1, amended.  After a successful open the response is the 200
    success and no error reaches the caller; the collections are filled
    in the order [trackUuids], [showUuids], [sources], [artistUuids],
    [offlineTracksBySource], each from the store when its own read and
    all reads before it succeed, and left empty otherwise. *)
Theorem extraction_stops_at_first_failure (env : Env) (realm : Realm.t) :
  opened env = Some realm →
  ∃ data,
    response env = Some (json (SuccessBody data (isEmptyOf data)) 200)
    ∧ schemaVersion data = Realm.schemaVersion realm
    ∧ let t := favoriteUuids realm "FavoritedTrack" in
      let s := favoriteUuids realm "FavoritedShow" in
      let c := favoriteSources realm in
      let a := favoriteUuids realm "FavoritedArtist" in
      let o := offlineTracks realm in
      trackUuids data = collected t
      ∧ showUuids data = (if succeeded t then collected s else [])
      ∧ sources data = (if succeeded t && succeeded s then collected c else [])
      ∧ artistUuids data =
          (if succeeded t && succeeded s && succeeded c then collected a else [])
      ∧ offlineTracksBySource data =
          (if succeeded t && succeeded s && succeeded c && succeeded a
           then collectedMap o else ∅).
Proof.
  intros Ho. exists (snapshot realm).
  split; [by apply response_opened|]. by repeat split.
Qed.

Lemma extraction_stops_at_first_failure_witness :
  opened (Sample.uploadLegacy Sample.noTracks) = Some Sample.noTracks
  ∧ ∃ data,
      response (Sample.uploadLegacy Sample.noTracks)
      = Some (json (SuccessBody data (isEmptyOf data)) 200)
      ∧ trackUuids data = [] ∧ showUuids data = [] ∧ sources data = []
      ∧ artistUuids data = [] ∧ offlineTracksBySource data = ∅.
Proof.
  assert (Ho : opened (Sample.uploadLegacy Sample.noTracks) = Some Sample.noTracks)
    by reflexivity.
  split; [exact Ho|].
  destruct (extraction_stops_at_first_failure _ _ Ho)
    as (data & Hr & _ & Ht & Hs & Hc & Ha & Hm).
  exists data. split; [exact Hr|].
  vm_compute in Ht, Hs, Hc, Ha, Hm. by repeat split.
Defined.

(** ** Sorted identifier lists *)

Section uuid_lists.

Lemma favoriteUuids_sorted (realm : Realm.t) (table : string) (ids : list string) :
  favoriteUuids realm table = inr ids → StronglySorted JS.unit_le ids.
Proof.
  intros (rows & raw & _ & _ & ->)%favoriteUuids_inr. apply sort_Sorted.
Qed.

Lemma favoriteUuids_NoDup (realm : Realm.t) (table : string) (ids : list string) :
  favoriteUuids realm table = inr ids →
  distinctLowercased realm table →
  NoDup ids.
Proof.
  intros (rows & raw & Hrows & Hall & ->)%favoriteUuids_inr Hdistinct.
  rewrite sort_Permutation.
  apply (NoDup_fmap_1 (@inr JS.exn string)).
  assert (Heq : (λ o, JS.callToLowerCase (prop o "uuid")) <$> rows
                = inr <$> raw).
  { clear Hrows Hdistinct.
    induction Hall as [|o id rows raw Ho _ IH]; [done|].
    rewrite !fmap_cons. by rewrite Ho, IH. }
  rewrite <- Heq. by apply Hdistinct.
Qed.

Lemma collection_sorted (realm : Realm.t) (table : string) (ids : list string) :
  favoriteUuids realm table = inr ids ∨ ids = [] →
  StronglySorted JS.unit_le ids
  ∧ (distinctLowercased realm table → NoDup ids).
Proof.
  intros [Hids| ->].
  - split; [by eapply favoriteUuids_sorted|by apply favoriteUuids_NoDup].
  - split; [constructor|intros _; constructor].
Qed.

End uuid_lists.

(** C3, as stated, fails: [Sample.caseTwins] follows the declared
    schema, the primary keys [A] and [a] of its favorited tracks are
    distinct, and [trackUuids] comes out as the list [a], [a]. *)
Lemma uuid_lists_no_duplicates_counterexample :
  ¬ (∀ env realm data isEmpty st,
       opened env = Some realm →
       followsDeclaredSchema realm →
       response env = Some (json (SuccessBody data isEmpty) st) →
       NoDup (trackUuids data)).
Proof.
  intros H.
  specialize (H (Sample.upload Sample.caseTwins) Sample.caseTwins
                (snapshot Sample.caseTwins) false 200%Z).
  assert (Hnodup : NoDup (trackUuids (snapshot Sample.caseTwins))).
  { apply H; [reflexivity| |vm_compute; reflexivity].
    assert (Hempty : ∀ schema,
      Realm.tables Sample.caseTwins !! name schema = Some [] →
      hasTable Sample.caseTwins schema).
    { intros schema Hs. exists []. split; [done|]. split; constructor. }
    repeat (constructor; [by apply Hempty|]).
    constructor.
    { exists [Sample.track "A"; Sample.track "a"].
      split; [reflexivity|]. split.
      - repeat (constructor; [repeat (constructor; [vm_compute; reflexivity|]);
                              constructor|]).
        constructor.
      - vm_compute. apply NoDup_cons. split; [|apply NoDup_singleton].
        rewrite list_elem_of_singleton. discriminate. }
    repeat (constructor; [by apply Hempty|]).
    constructor. }
  change (trackUuids (snapshot Sample.caseTwins))
    with (collected (favoriteUuids Sample.caseTwins "FavoritedTrack")) in Hnodup.
  vm_compute in Hnodup.
  apply NoDup_cons in Hnodup as [Hnotin _]. apply Hnotin. constructor.
Qed.

(** C3, amended.  In every success response [trackUuids], [showUuids]
    and [artistUuids] are sorted ascending in the code unit order of
    the lowercased identifiers, and a list has no duplicates whenever
    the primary keys of its table are still distinct once lowercased. *)
Theorem uuid_lists_sorted (env : Env) (realm : Realm.t) (data : LegacyData)
    (isEmpty : bool) (st : Z) :
  opened env = Some realm →
  response env = Some (json (SuccessBody data isEmpty) st) →
  (StronglySorted JS.unit_le (trackUuids data)
   ∧ (distinctLowercased realm "FavoritedTrack" → NoDup (trackUuids data)))
  ∧ (StronglySorted JS.unit_le (showUuids data)
     ∧ (distinctLowercased realm "FavoritedShow" → NoDup (showUuids data)))
  ∧ (StronglySorted JS.unit_le (artistUuids data)
     ∧ (distinctLowercased realm "FavoritedArtist" → NoDup (artistUuids data))).
Proof.
  intros Ho Hr. rewrite (response_opened env realm Ho) in Hr.
  injection Hr as <- _ _.
  destruct (snapshot_collections realm) as (Ht & Hs & _ & Ha & _).
  split; [|split]; by apply collection_sorted.
Qed.

Lemma uuid_lists_sorted_witness :
  opened (Sample.upload Sample.mixedCase) = Some Sample.mixedCase
  ∧ response (Sample.upload Sample.mixedCase)
    = Some (json (SuccessBody (snapshot Sample.mixedCase) false) 200)
  ∧ trackUuids (snapshot Sample.mixedCase) = ["alpha"; "b"; "zeta"]
  ∧ showUuids (snapshot Sample.mixedCase) = ["show-10"; "show-9"]
  ∧ artistUuids (snapshot Sample.mixedCase)
    = ["billy strings"; "grateful-dead"; "phish"]
  ∧ (StronglySorted JS.unit_le (trackUuids (snapshot Sample.mixedCase))
     ∧ NoDup (trackUuids (snapshot Sample.mixedCase)))
  ∧ (StronglySorted JS.unit_le (showUuids (snapshot Sample.mixedCase))
     ∧ NoDup (showUuids (snapshot Sample.mixedCase)))
  ∧ (StronglySorted JS.unit_le (artistUuids (snapshot Sample.mixedCase))
     ∧ NoDup (artistUuids (snapshot Sample.mixedCase))).
Proof.
  assert (Ho : opened (Sample.upload Sample.mixedCase) = Some Sample.mixedCase)
    by reflexivity.
  assert (Hr : response (Sample.upload Sample.mixedCase)
               = Some (json (SuccessBody (snapshot Sample.mixedCase) false) 200))
    by (vm_compute; reflexivity).
  split; [exact Ho|]. split; [exact Hr|].
  split; [vm_compute; reflexivity|].
  split; [vm_compute; reflexivity|].
  split; [vm_compute; reflexivity|].
  destruct (uuid_lists_sorted _ _ _ _ _ Ho Hr)
    as ((Ht & Htn) & (Hs & Hsn) & (Ha & Han)).
  split; [split; [exact Ht|apply Htn]|split; [split; [exact Hs|apply Hsn]|
          split; [exact Ha|apply Han]]].
  - intros rows Hrows.
    change (Some [Sample.track "Zeta"; Sample.track "B"; Sample.track "alpha"]
            = Some rows) in Hrows.
    injection Hrows as <-. vm_compute. distinct_results.
  - intros rows Hrows.
    change (Some [Sample.showNamed "SHOW-9"; Sample.showNamed "show-10"]
            = Some rows) in Hrows.
    injection Hrows as <-. vm_compute. distinct_results.
  - intros rows Hrows.
    change (Some [Sample.artistNamed "Phish"; Sample.artistNamed "grateful-dead";
                  Sample.artistNamed "Billy Strings"]
            = Some rows) in Hrows.
    injection Hrows as <-. vm_compute. distinct_results.
Defined.

(** ** Lowercased identifiers *)

Section lowercase.

Lemma isLower_toLowerCase (s : string) : isLower (JS.toLowerCase s).
Proof. apply toLowerCase_idem. Qed.

Lemma callToLowerCase_isLower (v : JS.value) (s : string) :
  JS.callToLowerCase v = inr s → isLower s.
Proof.
  intros (s0 & _ & ->)%callToLowerCase_inr. apply isLower_toLowerCase.
Qed.

Lemma favoriteUuids_isLower (realm : Realm.t) (table : string) (ids : list string) :
  favoriteUuids realm table = inr ids ∨ ids = [] → Forall isLower ids.
Proof.
  intros [(rows & raw & _ & Hall & ->)%favoriteUuids_inr| ->]; [|constructor].
  rewrite sort_Permutation.
  induction Hall as [|o id rows raw Ho _ IH]; constructor; [|done].
  by eapply callToLowerCase_isLower.
Qed.

Lemma favoriteSources_isLower (realm : Realm.t) (srcs : list Source.t) :
  favoriteSources realm = inr srcs ∨ srcs = [] → Forall lowerSource srcs.
Proof.
  intros [(rows & Hrows & Hall)%favoriteSources_inr| ->]; [|constructor].
  clear Hrows. induction Hall as [|o src rows srcs Ho _ IH]; constructor; [|done].
  apply toSource_inr in Ho as (u & a & s & _ & _ & _ & ->).
  repeat split; apply isLower_toLowerCase.
Qed.

Lemma offlineTracks_isLower (realm : Realm.t)
    (m : gmap string (list OfflineTrack.t)) :
  offlineTracks realm = inr m ∨ m = ∅ →
  ∀ k l, m !! k = Some l → isLower k ∧ Forall lowerOfflineTrack l.
Proof.
  intros [(rows & tracks & _ & Hall & Hagg)%offlineTracks_inr| ->];
    [|intros k l; by rewrite lookup_empty].
  assert (Htracks : Forall lowerOfflineTrack tracks).
  { clear Hagg. induction Hall as [|o t rows' tracks Ho _ IH]; constructor; [|done].
    apply toOfflineTrack_inr in Ho as (tr & a & s & c & _ & _ & _ & _ & ->).
    repeat split; apply isLower_toLowerCase. }
  apply aggregateBy_inr in Hagg as [_ Hlook].
  intros k l Hl. rewrite Hlook in Hl.
  assert (Hfilter : filter (λ t, OfflineTrack.source_uuid t = k) tracks = l)
    by (destruct (filter _ tracks); congruence).
  assert (Hin : Forall (λ t, OfflineTrack.source_uuid t = k ∧ lowerOfflineTrack t) l).
  { rewrite <- Hfilter. apply Forall_forall. intros t [Hk Ht]%list_elem_of_filter.
    split; [done|]. by eapply Forall_forall in Htracks. }
  split; [|by eapply Forall_impl; [exact Hin|intros ? []]].
  destruct l as [|t l]; [by destruct (filter _ tracks)|].
  apply Forall_cons in Hin as [[<- (_ & _ & _ & Hsrc)] _]. exact Hsrc.
Qed.

End lowercase.

(** C7.  Every identifier in a success response equals its own
    lowercased form: the entries of [trackUuids], [showUuids] and
    [artistUuids], the [uuid], [artist_uuid] and [show_uuid] of every
    source, and the [track_uuid], [artist_uuid], [show_uuid] and
    [source_uuid] of every offline track together with the key it is
    filed under; and lowercasing twice is lowercasing once. *)
Theorem identifiers_lowercased (env : Env) (data : LegacyData) (isEmpty : bool)
    (st : Z) :
  response env = Some (json (SuccessBody data isEmpty) st) →
  Forall isLower (trackUuids data)
  ∧ Forall isLower (showUuids data)
  ∧ Forall isLower (artistUuids data)
  ∧ Forall lowerSource (sources data)
  ∧ (∀ k l, offlineTracksBySource data !! k = Some l →
       isLower k ∧ Forall lowerOfflineTrack l)
  ∧ ∀ s, JS.toLowerCase (JS.toLowerCase s) = JS.toLowerCase s.
Proof.
  intros (realm & _ & -> & _ & _)%response_success.
  destruct (snapshot_collections realm) as (Ht & Hs & Hc & Ha & Ho).
  split_and!.
  - by eapply favoriteUuids_isLower.
  - by eapply favoriteUuids_isLower.
  - by eapply favoriteUuids_isLower.
  - by eapply favoriteSources_isLower.
  - by eapply offlineTracks_isLower.
  - apply toLowerCase_idem.
Qed.

Lemma identifiers_lowercased_witness :
  response (Sample.upload Sample.v9)
  = Some (json (SuccessBody (snapshot Sample.v9) false) 200)
  ∧ Forall isLower (trackUuids (snapshot Sample.v9))
  ∧ Forall lowerSource (sources (snapshot Sample.v9))
  ∧ ∀ k l, offlineTracksBySource (snapshot Sample.v9) !! k = Some l →
           isLower k ∧ Forall lowerOfflineTrack l.
Proof.
  assert (Hr : response (Sample.upload Sample.v9)
               = Some (json (SuccessBody (snapshot Sample.v9) false) 200))
    by (vm_compute; reflexivity).
  split; [exact Hr|].
  destruct (identifiers_lowercased _ _ _ _ Hr) as (Ht & _ & _ & Hc & Ho & _).
  split; [exact Ht|]. split; [exact Hc|exact Ho].
Defined.

(** ** Stores from an older schema *)

Section older_schema.

Lemma hasType_string (v : JS.value) :
  hasType v TString = true → ∃ s, v = JS.VString s.
Proof. destruct v; simpl; try discriminate. eauto. Qed.

Lemma conforms_string (schema : ObjectSchema) (rows : list Row) (p : string) :
  (p, TString) ∈ properties schema →
  conforms schema rows →
  Forall (λ o, ∃ s, prop o p = JS.VString s) rows.
Proof.
  intros Hp [Hrows _]. eapply Forall_impl; [exact Hrows|].
  intros o Ho. apply hasType_string.
  eapply Forall_forall in Ho; [|exact Hp]. exact Ho.
Qed.

Lemma favoriteUuids_hasTable (realm : Realm.t) (schema : ObjectSchema) :
  ("uuid", TString) ∈ properties schema →
  hasTable realm schema →
  ∃ ids, favoriteUuids realm (name schema) = inr ids
         ∧ populatedFrom realm (name schema) ids.
Proof.
  intros Hp (rows & Hrows & Hconf).
  pose proof (conforms_string schema rows "uuid" Hp Hconf) as Hstr.
  assert (Hraw : ∃ raw, Forall2 lowercasedUuid rows raw).
  { clear Hrows Hconf. induction Hstr as [|o rows [s Hs] _ [raw IH]].
    - exists []. constructor.
    - exists (JS.toLowerCase s :: raw). constructor; [|done]. by exists s. }
  destruct Hraw as [raw Hraw]. exists (JS.sort raw). split.
  - apply favoriteUuids_inr. exists rows, raw. split_and!; [done| |done].
    eapply Forall2_impl; [exact Hraw|]. by intros o id (s & -> & ->).
  - exists rows, raw. split_and!; [done..|]. apply sort_Permutation.
Qed.

Lemma favoriteSources_hasTable (realm : Realm.t) :
  hasTable realm FavoritedSourceSchema →
  ∃ srcs rows,
    favoriteSources realm = inr srcs
    ∧ Realm.tables realm !! "FavoritedSource" = Some rows
    ∧ Forall2 (λ o src, toSource o = inr src) rows srcs.
Proof.
  intros (rows & Hrows & Hconf).
  assert (Hu := conforms_string FavoritedSourceSchema rows "uuid"
                  ltac:(declared_property) Hconf).
  assert (Ha := conforms_string FavoritedSourceSchema rows "artist_uuid"
                  ltac:(declared_property) Hconf).
  assert (Hs := conforms_string FavoritedSourceSchema rows "show_uuid"
                  ltac:(declared_property) Hconf).
  assert (Hsrcs : ∃ srcs, Forall2 (λ o src, toSource o = inr src) rows srcs).
  { clear Hrows Hconf.
    induction rows as [|o rows IH]; [exists []; constructor|].
    apply Forall_cons in Hu as [[u Hu] Hus], Ha as [[a Ha] Has],
      Hs as [[s Hs] Hss].
    destruct (IH Hus Has Hss) as [srcs Hsrcs].
    eexists (_ :: srcs). constructor; [|done].
    apply toSource_inr. eauto 10. }
  destruct Hsrcs as [srcs Hsrcs]. exists srcs, rows. split_and!; [|done..].
  apply favoriteSources_inr. eauto.
Qed.

Lemma favoriteUuids_strings (realm : Realm.t) (table : string) :
  holdsIdentifiers realm table ["uuid"] →
  ∃ ids, favoriteUuids realm table = inr ids ∧ populatedFrom realm table ids.
Proof.
  intros (rows & Hrows & Hstr).
  assert (Hraw : ∃ raw, Forall2 lowercasedUuid rows raw).
  { clear Hrows. induction Hstr as [|o rows Ho _ [raw IH]].
    - exists []. constructor.
    - apply Forall_cons in Ho as [[s Hs] _].
      exists (JS.toLowerCase s :: raw). constructor; [|done]. by exists s. }
  destruct Hraw as [raw Hraw]. exists (JS.sort raw). split.
  - apply favoriteUuids_inr. exists rows, raw. split_and!; [done| |done].
    eapply Forall2_impl; [exact Hraw|]. by intros o id (s & -> & ->).
  - exists rows, raw. split_and!; [done..|]. apply sort_Permutation.
Qed.

Lemma favoriteSources_strings (realm : Realm.t) :
  holdsIdentifiers realm "FavoritedSource" ["uuid"; "artist_uuid"; "show_uuid"] →
  ∃ srcs rows,
    favoriteSources realm = inr srcs
    ∧ Realm.tables realm !! "FavoritedSource" = Some rows
    ∧ Forall2 (λ o src, toSource o = inr src) rows srcs.
Proof.
  intros (rows & Hrows & Hstr).
  assert (Hsrcs : ∃ srcs, Forall2 (λ o src, toSource o = inr src) rows srcs).
  { clear Hrows. induction Hstr as [|o rows Ho _ [srcs IH]].
    - exists []. constructor.
    - apply Forall_cons in Ho as [[u Hu] Ho].
      apply Forall_cons in Ho as [[a Ha] Ho].
      apply Forall_cons in Ho as [[s Hs] _].
      eexists (_ :: srcs). constructor; [|done].
      apply toSource_inr. eauto 10. }
  destruct Hsrcs as [srcs Hsrcs]. exists srcs, rows. split_and!; [|done..].
  apply favoriteSources_inr. eauto.
Qed.

Lemma offlineTracks_absent (realm : Realm.t) :
  Realm.tables realm !! "OfflineTrack" = None →
  succeeded (offlineTracks realm) = false.
Proof. intros H. unfold offlineTracks, objects. by rewrite H. Qed.

End older_schema.

(** C8, as stated, fails: [Sample.sourcesWithoutShow] has no
    [OfflineTrack] and no [OfflineSource] table and holds the four
    favorites tables, each with one object, but its favorited source
    has no [show_uuid].  The response is the 200 success, yet [sources]
    and [artistUuids] are empty: they are not populated from the
    store. *)
Lemma older_schema_counterexample :
  Realm.tables Sample.sourcesWithoutShow !! "OfflineTrack" = None
  ∧ Realm.tables Sample.sourcesWithoutShow !! "OfflineSource" = None
  ∧ Realm.tables Sample.sourcesWithoutShow !! "FavoritedTrack"
    = Some [Sample.track "track-101"]
  ∧ Realm.tables Sample.sourcesWithoutShow !! "FavoritedShow"
    = Some [Sample.show]
  ∧ Realm.tables Sample.sourcesWithoutShow !! "FavoritedSource"
    = Some [Sample.sourceWithoutShow]
  ∧ Realm.tables Sample.sourcesWithoutShow !! "FavoritedArtist"
    = Some [Sample.artist]
  ∧ opened (Sample.uploadLegacy Sample.sourcesWithoutShow)
    = Some Sample.sourcesWithoutShow
  ∧ ∃ data,
      response (Sample.uploadLegacy Sample.sourcesWithoutShow)
      = Some (json (SuccessBody data false) 200)
      ∧ sources data = []
      ∧ artistUuids data = []
      ∧ ¬ populatedFrom Sample.sourcesWithoutShow "FavoritedArtist"
            (artistUuids data).
Proof.
  split_and!; try reflexivity.
  exists (snapshot Sample.sourcesWithoutShow).
  assert (Ha : artistUuids (snapshot Sample.sourcesWithoutShow) = [])
    by (vm_compute; reflexivity).
  split_and!; [vm_compute; reflexivity..|exact Ha|].
  rewrite Ha. intros (rows & raw & Hrows & Hall & Hperm).
  change (Some [Sample.artist] = Some rows) in Hrows. injection Hrows as <-.
  apply Permutation_nil in Hperm as ->. inversion Hall.
Qed.

(** C8, amended.  A store that has no [OfflineTrack] and no
    [OfflineSource] table, and holds the four favorites tables with
    every identifier the block lowercases stored as a string, is
    answered with the 200 success: [offlineTracksBySource] is empty,
    each of the three identifier lists holds the lowercased [uuid] of
    every object of its table, and [sources] holds one record per
    favorited source, in store order, with its identifiers lowercased
    and its two dates handed through.  Nothing else is asked of the
    objects: neither dates nor any other declared property. *)
Theorem older_schema_still_extracts (env : Env) (realm : Realm.t) :
  opened env = Some realm →
  Realm.tables realm !! "OfflineTrack" = None →
  Realm.tables realm !! "OfflineSource" = None →
  holdsIdentifiers realm "FavoritedArtist" ["uuid"] →
  holdsIdentifiers realm "FavoritedShow" ["uuid"] →
  holdsIdentifiers realm "FavoritedSource" ["uuid"; "artist_uuid"; "show_uuid"] →
  holdsIdentifiers realm "FavoritedTrack" ["uuid"] →
  ∃ data isEmpty,
    response env = Some (json (SuccessBody data isEmpty) 200)
    ∧ offlineTracksBySource data = ∅
    ∧ populatedFrom realm "FavoritedTrack" (trackUuids data)
    ∧ populatedFrom realm "FavoritedShow" (showUuids data)
    ∧ populatedFrom realm "FavoritedArtist" (artistUuids data)
    ∧ ∃ rows,
        Realm.tables realm !! "FavoritedSource" = Some rows
        ∧ Forall2 (λ o src,
                     (∃ u, prop o "uuid" = JS.VString u
                           ∧ Source.uuid src = JS.toLowerCase u)
                     ∧ (∃ a, prop o "artist_uuid" = JS.VString a
                             ∧ Source.artist_uuid src = JS.toLowerCase a)
                     ∧ (∃ s, prop o "show_uuid" = JS.VString s
                             ∧ Source.show_uuid src = JS.toLowerCase s)
                     ∧ Source.created_at src = prop o "created_at"
                     ∧ Source.show_date src = prop o "show_date")
                  rows (sources data).
Proof.
  intros Ho Hoff _ Ha Hs Hc Ht.
  destruct (favoriteUuids_strings realm "FavoritedTrack" Ht)
    as (tids & Htids & Htpop).
  destruct (favoriteUuids_strings realm "FavoritedShow" Hs)
    as (sids & Hsids & Hspop).
  destruct (favoriteUuids_strings realm "FavoritedArtist" Ha)
    as (aids & Haids & Hapop).
  destruct (favoriteSources_strings realm Hc)
    as (srcs & rows & Hsrcs & Hrows & Hall).
  exists (snapshot realm), (isEmptyOf (snapshot realm)).
  split; [by apply response_opened|].
  unfold snapshot; simpl. rewrite Htids, Hsids, Haids, Hsrcs; simpl.
  unfold offlineTracks, objects. rewrite Hoff. simpl.
  split_and!; try done.
  exists rows. split; [done|]. eapply Forall2_impl; [exact Hall|].
  intros o src (u & a & s & Hu & Hat & Hsh & ->)%toSource_inr. simpl.
  split_and!; eauto.
Qed.

Lemma older_schema_still_extracts_witness :
  Realm.tables Sample.identifiersOnly !! "OfflineTrack" = None
  ∧ Realm.tables Sample.identifiersOnly !! "OfflineSource" = None
  ∧ ¬ hasTable Sample.identifiersOnly FavoritedTrackSchema
  ∧ ∃ data isEmpty,
      response (Sample.uploadLegacy Sample.identifiersOnly)
      = Some (json (SuccessBody data isEmpty) 200)
      ∧ offlineTracksBySource data = ∅
      ∧ populatedFrom Sample.identifiersOnly "FavoritedTrack" (trackUuids data)
      ∧ populatedFrom Sample.identifiersOnly "FavoritedShow" (showUuids data)
      ∧ populatedFrom Sample.identifiersOnly "FavoritedArtist" (artistUuids data)
      ∧ ∃ rows,
          Realm.tables Sample.identifiersOnly !! "FavoritedSource" = Some rows
          ∧ Forall2 (λ o src,
                       (∃ u, prop o "uuid" = JS.VString u
                             ∧ Source.uuid src = JS.toLowerCase u)
                       ∧ (∃ a, prop o "artist_uuid" = JS.VString a
                               ∧ Source.artist_uuid src = JS.toLowerCase a)
                       ∧ (∃ s, prop o "show_uuid" = JS.VString s
                               ∧ Source.show_uuid src = JS.toLowerCase s)
                       ∧ Source.created_at src = prop o "created_at"
                       ∧ Source.show_date src = prop o "show_date")
                    rows (sources data).
Proof.
  split; [reflexivity|]. split; [reflexivity|]. split.
  { intros (rows & Hrows & Hconf & _).
    change (Some [Sample.row [("uuid", JS.VString "T2")];
                  Sample.row [("uuid", JS.VString "t1")]]
            = Some rows) in Hrows.
    injection Hrows as <-.
    apply Forall_cons in Hconf as [Hfirst _].
    apply Forall_cons in Hfirst as [_ Hrest].
    apply Forall_cons in Hrest as [Hdate _]. discriminate Hdate. }
  apply (older_schema_still_extracts
           (Sample.uploadLegacy Sample.identifiersOnly) Sample.identifiersOnly).
  - reflexivity.
  - reflexivity.
  - reflexivity.
  - holds_identifiers [Sample.row [("uuid", JS.VString "Artist-2")];
                       Sample.row [("uuid", JS.VString "artist-1")]].
  - holds_identifiers [Sample.row [("uuid", JS.VString "Show-1")]].
  - holds_identifiers
      [Sample.row [("uuid", JS.VString "Source-B");
                   ("artist_uuid", JS.VString "Artist-2");
                   ("show_uuid", JS.VString "Show-1")];
       Sample.row [("uuid", JS.VString "source-a");
                   ("artist_uuid", JS.VString "artist-1");
                   ("show_uuid", JS.VString "Show-1");
                   ("show_date", JS.VDate 1689379200000)]].
  - holds_identifiers [Sample.row [("uuid", JS.VString "T2")];
                       Sample.row [("uuid", JS.VString "t1")]].
Defined.

(** ** Downloaded tracks by source *)

Section downloaded.

Lemma filter_isDownloaded (rows : list Row) :
  List.filter isDownloaded rows
  = filter (λ o, prop o "state" = JS.VNumber 3) rows.
Proof.
  induction rows as [|o rows IH]; [done|].
  rewrite filter_cons. simpl. unfold isDownloaded at 1.
  change OfflineTrackState.DOWNLOADED with 3%Z.
  destruct (decide (prop o "state" = JS.VNumber 3)) as [Hs|Hs].
  - rewrite bool_decide_true by done. by rewrite IH.
  - by rewrite bool_decide_false.
Qed.

Lemma toOfflineTrack_total (o : Row) :
  stringIdentifiers o → ∃ t, toOfflineTrack o = inr t.
Proof.
  intros (t & a & s & c & Ht & Ha & Hs & Hc).
  eexists. apply toOfflineTrack_inr. eauto 12.
Qed.

Lemma reachesOfflineTracks_snapshot (realm : Realm.t) :
  reachesOfflineTracks realm →
  offlineTracksBySource (snapshot realm) = collectedMap (offlineTracks realm).
Proof.
  intros (Ht & Hs & Hc & Ha). unfold snapshot; simpl.
  by rewrite Ht, Hs, Hc, Ha.
Qed.

End downloaded.

(** C4, as stated, fails: [Sample.partialOffline] is opened without a
    schema, its one offline track has state 3 and source [source-789]
    but no [show_uuid]; the read of the table succeeds, and the mapping
    in the response has no entry for that source. *)
Lemma downloaded_tracks_grouped_counterexample :
  ¬ (∀ env realm rows data isEmpty st,
       opened env = Some realm →
       reachesOfflineTracks realm →
       objects realm "OfflineTrack" = inr rows →
       response env = Some (json (SuccessBody data isEmpty) st) →
       ∀ o s, o ∈ rows →
              prop o "state" = JS.VNumber 3 →
              prop o "source_uuid" = JS.VString s →
              ∃ l, offlineTracksBySource data !! JS.toLowerCase s = Some l
                   ∧ l ≠ []).
Proof.
  intros H.
  destruct (H (Sample.uploadLegacy Sample.partialOffline) Sample.partialOffline
              [Sample.offlineWithoutShow] (snapshot Sample.partialOffline)
              true 200%Z) with (o := Sample.offlineWithoutShow) (s := "source-789")
    as (l & Hl & _).
  - reflexivity.
  - repeat split; vm_compute; reflexivity.
  - reflexivity.
  - vm_compute; reflexivity.
  - apply list_elem_of_here.
  - vm_compute; reflexivity.
  - vm_compute; reflexivity.
  - vm_compute in Hl. discriminate.
Qed.

(** C4, amended.  When the block reaches the offline tracks, every
    object of state 3 carries string identifiers, and no lowercased
    [source_uuid] among them names a member inherited from
    [Object.prototype], then the response's [offlineTracksBySource] is
    built from exactly the objects of state 3, one record each: under
    every key the records whose lowercased [source_uuid] is that key,
    in the order of the table, and no key with an empty list. *)
Theorem downloaded_tracks_grouped (env : Env) (realm : Realm.t) (rows : list Row) :
  opened env = Some realm →
  reachesOfflineTracks realm →
  Realm.tables realm !! "OfflineTrack" = Some rows →
  Forall stringIdentifiers (filter (λ o, prop o "state" = JS.VNumber 3) rows) →
  Forall (λ o, ∀ s, prop o "source_uuid" = JS.VString s →
                    JS.inherited (JS.toLowerCase s) = false)
         (filter (λ o, prop o "state" = JS.VNumber 3) rows) →
  ∃ data isEmpty tracks,
    response env = Some (json (SuccessBody data isEmpty) 200)
    ∧ Forall2 (λ o t,
                 toOfflineTrack o = inr t
                 ∧ OfflineTrack.state t = JS.VNumber 3
                 ∧ ∃ s, prop o "source_uuid" = JS.VString s
                        ∧ OfflineTrack.source_uuid t = JS.toLowerCase s)
              (filter (λ o, prop o "state" = JS.VNumber 3) rows) tracks
    ∧ ∀ k, offlineTracksBySource data !! k
           = match filter (λ t, OfflineTrack.source_uuid t = k) tracks with
             | [] => None
             | l => Some l
             end.
Proof.
  intros Ho Hreach Hrows Hstr Hkeys.
  set (downloaded := filter (λ o, prop o "state" = JS.VNumber 3) rows) in *.
  assert (Hstate : Forall (λ o, prop o "state" = JS.VNumber 3) downloaded).
  { apply Forall_forall. by intros o [Hs _]%list_elem_of_filter. }
  assert (Htracks : ∃ tracks,
    Forall2 (λ o t,
               toOfflineTrack o = inr t
               ∧ OfflineTrack.state t = JS.VNumber 3
               ∧ ∃ s, prop o "source_uuid" = JS.VString s
                      ∧ OfflineTrack.source_uuid t = JS.toLowerCase s)
            downloaded tracks
    ∧ Forall (λ t, JS.inherited (OfflineTrack.source_uuid t) = false) tracks).
  { clearbody downloaded. clear Hrows.
    induction downloaded as [|o downloaded IH].
    - exists []. split; constructor.
    - apply Forall_cons in Hstr as [Ho1 Hstr], Hkeys as [Hk Hkeys],
        Hstate as [Hs Hstate].
      destruct (IH Hstr Hkeys Hstate) as (tracks & Hall & Hplain).
      destruct (toOfflineTrack_total o Ho1) as [t Ht].
      pose proof Ht as (tr & a & s & c & _ & _ & _ & Hc & ->)%toOfflineTrack_inr.
      eexists (_ :: tracks). split; constructor; try done.
      + split; [exact Ht|]. split; [exact Hs|]. by exists c.
      + simpl. by apply Hk. }
  destruct Htracks as (tracks & Hall & Hplain).
  destruct (aggregateBy_partition OfflineTrack.source_uuid tracks Hplain)
    as (m & Hm & Hlook).
  assert (Hoff : offlineTracks realm = inr m).
  { apply offlineTracks_inr. exists rows, tracks. split_and!; [done| |done].
    rewrite filter_isDownloaded. eapply Forall2_impl; [exact Hall|].
    by intros o t [Ht _]. }
  exists (snapshot realm), (isEmptyOf (snapshot realm)), tracks.
  split; [by apply response_opened|]. split; [exact Hall|].
  intros k. rewrite (reachesOfflineTracks_snapshot realm Hreach), Hoff.
  apply Hlook.
Qed.

Lemma downloaded_tracks_grouped_witness :
  opened (Sample.upload Sample.v9) = Some Sample.v9
  ∧ Realm.tables Sample.v9 !! "OfflineTrack"
    = Some [Sample.offlineTrack "source-789"]
  ∧ ∃ data isEmpty tracks,
      response (Sample.upload Sample.v9)
      = Some (json (SuccessBody data isEmpty) 200)
      ∧ Forall2 (λ o t,
                   toOfflineTrack o = inr t
                   ∧ OfflineTrack.state t = JS.VNumber 3
                   ∧ ∃ s, prop o "source_uuid" = JS.VString s
                          ∧ OfflineTrack.source_uuid t = JS.toLowerCase s)
                (filter (λ o, prop o "state" = JS.VNumber 3)
                        [Sample.offlineTrack "source-789"]) tracks
      ∧ ∀ k, offlineTracksBySource data !! k
             = match filter (λ t, OfflineTrack.source_uuid t = k) tracks with
               | [] => None
               | l => Some l
               end.
Proof.
  split; [reflexivity|]. split; [reflexivity|].
  apply (downloaded_tracks_grouped (Sample.upload Sample.v9) Sample.v9).
  - reflexivity.
  - repeat split; vm_compute; reflexivity.
  - reflexivity.
  - rewrite filter_cons, decide_True by (vm_compute; reflexivity).
    constructor; [|constructor].
    exists "offline-track-202", "artist-123", "show-456", "source-789".
    repeat split; vm_compute; reflexivity.
  - rewrite filter_cons, decide_True by (vm_compute; reflexivity).
    constructor; [|constructor].
    intros s Hs. vm_compute in Hs. injection Hs as <-. vm_compute; reflexivity.
Defined.

(** ** An inherited name as a key *)

(** C9 (defect in the code).  A plain object inherits [constructor];
    for an item filed under that key [aggregateBy] creates no list and
    throws on [push] instead of returning a mapping, and the handler
    then answers with an empty [offlineTracksBySource] although the
    store holds a downloaded track. *)
Theorem aggregateBy_inherited_key :
  (∃ t, downloadedTracks [Sample.offlineTrack "constructor"] = inr [t]
        ∧ OfflineTrack.source_uuid t = "constructor"
        ∧ aggregateBy OfflineTrack.source_uuid [t]
          = inl (JS.Error "result[key].push is not a function"))
  ∧ ∃ data,
      response (Sample.upload Sample.constructorSource)
      = Some (json (SuccessBody data true) 200)
      ∧ offlineTracksBySource data = ∅.
Proof.
  split.
  - eexists. split; [vm_compute; reflexivity|].
    split; [reflexivity|]. vm_compute; reflexivity.
  - eexists. split; [vm_compute; reflexivity|]. reflexivity.
Qed.

(** * Further properties of the handler *)

(** Run the handler on every kind of request: one goal per path. *)
Ltac run_handler c_json env :=
  unfold_handler;
  destruct (database env) as [?e|[[?file|[|?a ?text]]|]] eqn:?Hdb; simpl;
  [ | destruct (writeError env) as [?e|] eqn:?Hw; simpl;
      [ | destruct (openWith _ withDeclaredSchema) as [?e|?realm] eqn:?Hd; simpl;
          [destruct (openWith _ withoutSchema) as [?e|?realm] eqn:?Hs; simpl|];
          try (rewrite extraction_run; simpl;
               destruct (firstFailure _) as [?e|] eqn:?Hfail; simpl) ]
    | | | ];
  repeat match goal with
         | |- context [c_json ?b ?st] => destruct (c_json b st) eqn:?Hjson; simpl
         end;
  destruct (unlinkError env) as [?e|] eqn:?Hu; simpl.

(** ** Requests without a usable upload *)

(** X1.  A request without a [database] entry is answered 400
    "Database file is required" and has no effect at all: nothing is
    written, opened, logged or removed. *)
Theorem missing_file_untouched (env : Env) :
  database env = inr None →
  response env = Some (json (ErrorBody "Database file is required") 400)
  ∧ trace env = [].
Proof.
  intros Hdb. unfold response, trace. unfold_handler. by rewrite Hdb.
Qed.

Lemma missing_file_untouched_witness :
  database Requests.empty = inr None
  ∧ response Requests.empty
    = Some (json (ErrorBody "Database file is required") 400)
  ∧ trace Requests.empty = [].
Proof. split; [reflexivity|]. exact (missing_file_untouched Requests.empty eq_refl). Defined.

(** X2.  The response is a 500 exactly when parsing the form throws,
    when the [database] entry is a non-empty text field, on which
    [databaseFile.arrayBuffer()] throws, or when writing the temporary
    input throws; its body then is "Database parsing failed" with the
    message of the thrown error, and no open of the store is
    attempted. *)
Theorem parsing_failed_iff (env : Env) (r : Response) :
  response env = Some r →
  (status r = 500%Z ↔
   (∃ e, database env = inl e)
   ∨ (∃ text, text ≠ "" ∧ database env = inr (Some (TextEntry text)))
   ∨ (∃ file e, database env = inr (Some (FileEntry file)) ∧ writeError env = Some e))
  ∧ (status r = 500%Z →
     openAttempts (trace env) = []
     ∧ ∃ e, (database env = inl e
             ∨ (∃ text, text ≠ "" ∧ database env = inr (Some (TextEntry text))
                        ∧ arrayBuffer (TextEntry text) = inl e)
             ∨ ∃ file, database env = inr (Some (FileEntry file)) ∧ writeError env = Some e)
            ∧ body r = ErrorDetailsBody "Database parsing failed" (JS.message e)).
Proof.
  unfold response, trace, openAttempts. run_handler serialize env;
    intros [= <-]; simpl; (split; [split|]);
    try discriminate;
    try (intros [[? [=]]|[(? & ? & [=])|(? & ? & [=] & [=])]]; congruence);
    try (intros _; eauto 10; fail).
  all: intros _;
    first [ right; left; eexists; split; [|reflexivity]; discriminate
          | split; [reflexivity|]; eexists;
            split; [right; left; eexists; split_and!; [|reflexivity..];
                    discriminate|reflexivity] ].
Qed.

Lemma parsing_failed_iff_witness :
  (response Requests.textField
   = Some (json (ErrorDetailsBody "Database parsing failed"
                   "databaseFile.arrayBuffer is not a function") 500)
   ∧ openAttempts (trace Requests.textField) = [])
  ∧ (response Requests.diskFull
     = Some (json (ErrorDetailsBody "Database parsing failed" "ENOSPC") 500)
     ∧ openAttempts (trace Requests.diskFull) = []).
Proof.
  assert (Ht : response Requests.textField
               = Some (json (ErrorDetailsBody "Database parsing failed"
                               "databaseFile.arrayBuffer is not a function")
                            500)) by reflexivity.
  assert (Hr : response Requests.diskFull
               = Some (json (ErrorDetailsBody "Database parsing failed" "ENOSPC")
                            500)) by reflexivity.
  split; (split; [eassumption|]).
  - exact (proj1 (proj2 (parsing_failed_iff Requests.textField _ Ht) eq_refl)).
  - exact (proj1 (proj2 (parsing_failed_iff Requests.diskFull _ Hr) eq_refl)).
Defined.

(** X3.  The handler always answers, and with one of four responses
    only: 200 with the success body, whose flag is computed from its
    data; 400 with one of the two fixed messages; 500 with "Database
    parsing failed" and details. *)
Theorem response_shapes (env : Env) :
  ∃ r, response env = Some r
    ∧ ((status r = 200%Z ∧ ∃ data, body r = SuccessBody data (isEmptyOf data))
       ∨ (status r = 400%Z
          ∧ (body r = ErrorBody "Database file is required"
             ∨ body r = ErrorBody "Unable to read database or unsupported version"))
       ∨ (status r = 500%Z
          ∧ ∃ details, body r = ErrorDetailsBody "Database parsing failed" details)).
Proof.
  unfold response. run_handler serialize env; eexists; (split; [reflexivity|]);
    simpl; eauto 10.
Qed.

(** ** The temporary input *)

(** X4.  When the form carries a file, the temporary input is written
    first and removed last, once each and under the same path, whatever
    happens in between and whatever [c.json] does: a failed write, an
    unreadable store, a warning or a 500 all end with the removal. *)
Theorem temporary_input_removed (c_json : Body → Z → Res Response) (env : Env)
    (file : File) :
  database env = inr (Some (FileEntry file)) →
  fileEvents (traceWith c_json env)
  = [EvWriteFile (now env) (bool_decide (writeError env = None));
     EvUnlink (now env) (bool_decide (unlinkError env = None))]
  ∧ head (traceWith c_json env)
    = Some (EvWriteFile (now env) (bool_decide (writeError env = None)))
  ∧ last (traceWith c_json env)
    = Some (EvUnlink (now env) (bool_decide (unlinkError env = None))).
Proof.
  intros Hfile. unfold traceWith, fileEvents.
  run_handler c_json env; try discriminate; done.
Qed.

Lemma temporary_input_removed_witness :
  database Requests.diskFull
  = inr (Some (FileEntry (Sample.file (inr Sample.v9) (inr Sample.v9))))
  ∧ fileEvents (traceWith Sample.unserializable Requests.diskFull)
    = [EvWriteFile 1700000000000 false; EvUnlink 1700000000000 false]
  ∧ head (traceWith Sample.unserializable Requests.diskFull)
    = Some (EvWriteFile 1700000000000 false)
  ∧ last (traceWith Sample.unserializable Requests.diskFull)
    = Some (EvUnlink 1700000000000 false).
Proof.
  split; [reflexivity|].
  exact (temporary_input_removed Sample.unserializable Requests.diskFull _ eq_refl).
Defined.

(** X5.  Without an uploaded file in the form nothing is written and
    no store is opened.  When the form cannot be parsed, has no
    [database] entry or has the empty string there, no temporary path
    is touched at all.  When the entry is a non-empty text field, the
    path is chosen before [databaseFile.arrayBuffer()] throws, so the
    [finally] block still asks for the removal of that never-written
    path, and this is the only file event. *)
Theorem no_file_no_temporary_input (c_json : Body → Z → Res Response) (env : Env) :
  (∀ file, database env ≠ inr (Some (FileEntry file))) →
  openAttempts (traceWith c_json env) = []
  ∧ fileEvents (traceWith c_json env)
    = match database env with
      | inr (Some (TextEntry (String _ _))) =>
          [EvUnlink (now env) (bool_decide (unlinkError env = None))]
      | _ => []
      end.
Proof.
  intros Hno. unfold traceWith, fileEvents, openAttempts.
  run_handler c_json env; try (by destruct (Hno file)); done.
Qed.

Lemma no_file_no_temporary_input_witness :
  (∀ file, database Requests.textField ≠ inr (Some (FileEntry file)))
  ∧ openAttempts (traceWith Sample.unserializable Requests.textField) = []
  ∧ fileEvents (traceWith Sample.unserializable Requests.textField)
    = [EvUnlink 1700000000000 false].
Proof.
  assert (H : ∀ file, database Requests.textField ≠ inr (Some (FileEntry file)))
    by (intros file; discriminate).
  split; [exact H|].
  exact (no_file_no_temporary_input Sample.unserializable Requests.textField H).
Defined.

(** X6.  A failing removal of the temporary input is swallowed: the
    response does not depend on how [unlinkSync] behaves. *)
Theorem unlink_failure_ignored (c_json : Body → Z → Res Response) (env : Env)
    (e : option JS.exn) :
  responseWith c_json (withUnlinkError e env) = responseWith c_json env.
Proof.
  unfold responseWith, withUnlinkError. unfold_handler. simpl.
  destruct (database env) as [?e|[[?file|[|?a ?text]]|]]; simpl.
  - by destruct (c_json _ _).
  - destruct (writeError env); simpl.
    + destruct (c_json _ _); simpl; by destruct e, (unlinkError env).
    + destruct (openWith _ withDeclaredSchema); simpl;
        [destruct (openWith _ withoutSchema); simpl|];
        try (rewrite !extraction_run; simpl; destruct (firstFailure _); simpl);
        repeat match goal with
               | |- context [c_json ?b ?st] => destruct (c_json b st); simpl
               end;
        by destruct e, (unlinkError env).
  - destruct (c_json (ErrorBody _) _); simpl; [by destruct (c_json _ _)|done].
  - destruct (c_json _ _); simpl; by destruct e, (unlinkError env).
  - destruct (c_json (ErrorBody _) _); simpl; [by destruct (c_json _ _)|done].
Qed.

(** ** How the store is opened *)

(** X7.  The store is only ever opened read-only, only after the
    upload was written, and only with the declared schema or with
    none; at most two attempts are made. *)
Theorem opens_read_only (c_json : Body → Z → Res Response) (env : Env)
    (config : Configuration) (ok : bool) :
  EvOpen config ok ∈ traceWith c_json env →
  readOnly config = true
  ∧ (config = withDeclaredSchema ∨ config = withoutSchema)
  ∧ writeError env = None
  ∧ (length (openAttempts (traceWith c_json env)) ≤ 2)%nat.
Proof.
  unfold traceWith, openAttempts.
  run_handler c_json env; intros Hin;
    repeat (apply elem_of_cons in Hin as [Hin|Hin];
            [try discriminate; injection Hin as -> ->; simpl; by eauto 10|]);
    by apply elem_of_nil in Hin.
Qed.

Lemma opens_read_only_witness :
  EvOpen withoutSchema true
  ∈ traceWith Sample.unserializable (Sample.uploadLegacy Sample.favoritesOnly)
  ∧ readOnly withoutSchema = true
  ∧ (length (openAttempts
               (traceWith Sample.unserializable
                  (Sample.uploadLegacy Sample.favoritesOnly))) ≤ 2)%nat.
Proof.
  assert (H : EvOpen withoutSchema true
              ∈ traceWith Sample.unserializable
                  (Sample.uploadLegacy Sample.favoritesOnly)).
  { vm_compute. do 2 apply list_elem_of_further. apply list_elem_of_here. }
  split; [exact H|].
  destruct (opens_read_only _ _ _ _ H) as (Hro & _ & _ & Hlen).
  split; [exact Hro|exact Hlen].
Defined.

(** ** Warnings *)

(** X8.  The inner [catch] logs at most one warning per request, and
    it logs one exactly when the store was opened and one of the five
    reads threw; a request that opens no store logs none. *)
Theorem warning_iff_read_failed (env : Env) :
  (length (warnings (trace env)) ≤ 1)%nat
  ∧ (opened env = None → warnings (trace env) = [])
  ∧ ∀ realm, opened env = Some realm →
      (warnings (trace env) = [] ↔
       succeeded (favoriteUuids realm "FavoritedTrack") = true
       ∧ succeeded (favoriteUuids realm "FavoritedShow") = true
       ∧ succeeded (favoriteSources realm) = true
       ∧ succeeded (favoriteUuids realm "FavoritedArtist") = true
       ∧ succeeded (offlineTracks realm) = true).
Proof.
  assert (Hopened : ∀ realm, opened env = Some realm →
    warnings (trace env)
    = match firstFailure realm with Some e => [EvConsoleWarn e] | None => [] end).
  { intros realm (file & Hdb & Hw & Hopen)%opened_Some.
    unfold trace. rewrite (migrate_opened env file realm Hdb Hw Hopen). simpl.
    unfold openEvents, warnings.
    destruct (openDeclared file), (firstFailure realm); reflexivity. }
  assert (Hclosed : opened env = None → warnings (trace env) = []).
  { unfold opened, trace, warnings.
    run_handler serialize env; try discriminate; done. }
  split_and!.
  - destruct (opened env) as [realm|] eqn:Ho.
    + rewrite (Hopened realm eq_refl). destruct (firstFailure realm); simpl; lia.
    + rewrite Hclosed by done. simpl; lia.
  - exact Hclosed.
  - intros realm Ho. rewrite (Hopened realm Ho). unfold firstFailure.
    destruct (favoriteUuids realm "FavoritedTrack"); simpl; [intuition congruence|].
    destruct (favoriteUuids realm "FavoritedShow"); simpl; [intuition congruence|].
    destruct (favoriteSources realm); simpl; [intuition congruence|].
    destruct (favoriteUuids realm "FavoritedArtist"); simpl; [intuition congruence|].
    destruct (offlineTracks realm); simpl; intuition congruence.
Qed.

(** ** What a collection can hold *)

(** X9.  Each identifier list of a success response is all or nothing:
    it is empty, or it holds the lowercased [uuid] of every object of
    its table, each object once; it is never filled from part of a
    table. *)
Theorem uuid_lists_all_or_nothing (env : Env) (realm : Realm.t)
    (data : LegacyData) (isEmpty : bool) (st : Z) :
  opened env = Some realm →
  response env = Some (json (SuccessBody data isEmpty) st) →
  (trackUuids data = [] ∨ populatedFrom realm "FavoritedTrack" (trackUuids data))
  ∧ (showUuids data = [] ∨ populatedFrom realm "FavoritedShow" (showUuids data))
  ∧ (artistUuids data = []
     ∨ populatedFrom realm "FavoritedArtist" (artistUuids data)).
Proof.
  intros Ho Hr. rewrite (response_opened env realm Ho) in Hr.
  injection Hr as <- _ _.
  assert (Hpop : ∀ table ids,
    favoriteUuids realm table = inr ids ∨ ids = [] →
    ids = [] ∨ populatedFrom realm table ids).
  { intros table ids [(rows & raw & Hrows & Hall & ->)%favoriteUuids_inr| ->];
      [right|by left].
    exists rows, raw. split_and!; [done| |apply sort_Permutation].
    eapply Forall2_impl; [exact Hall|].
    intros o id (s & Hs & ->)%callToLowerCase_inr. by exists s. }
  destruct (snapshot_collections realm) as (Ht & Hs & _ & Ha & _).
  split_and!; by apply Hpop.
Qed.

Lemma uuid_lists_all_or_nothing_witness :
  opened (Sample.upload Sample.v9) = Some Sample.v9
  ∧ response (Sample.upload Sample.v9)
    = Some (json (SuccessBody (snapshot Sample.v9) false) 200)
  ∧ (trackUuids (snapshot Sample.v9) = []
     ∨ populatedFrom Sample.v9 "FavoritedTrack" (trackUuids (snapshot Sample.v9))).
Proof.
  assert (Ho : opened (Sample.upload Sample.v9) = Some Sample.v9) by reflexivity.
  assert (Hr : response (Sample.upload Sample.v9)
               = Some (json (SuccessBody (snapshot Sample.v9) false) 200))
    by (vm_compute; reflexivity).
  split; [exact Ho|]. split; [exact Hr|].
  exact (proj1 (uuid_lists_all_or_nothing _ _ _ _ _ Ho Hr)).
Defined.

(** X10.  The [sources] of a success response are empty, or they are
    the favorited sources in the order the store iterates them, not
    sorted: one record per object with the three identifiers lowercased
    and [created_at] and [show_date] handed through unchanged. *)
Theorem sources_in_store_order (env : Env) (realm : Realm.t)
    (data : LegacyData) (isEmpty : bool) (st : Z) :
  opened env = Some realm →
  response env = Some (json (SuccessBody data isEmpty) st) →
  sources data = []
  ∨ ∃ rows,
      Realm.tables realm !! "FavoritedSource" = Some rows
      ∧ Forall2 (λ o src,
                   (∃ u, prop o "uuid" = JS.VString u
                         ∧ Source.uuid src = JS.toLowerCase u)
                   ∧ (∃ a, prop o "artist_uuid" = JS.VString a
                           ∧ Source.artist_uuid src = JS.toLowerCase a)
                   ∧ (∃ s, prop o "show_uuid" = JS.VString s
                           ∧ Source.show_uuid src = JS.toLowerCase s)
                   ∧ Source.created_at src = prop o "created_at"
                   ∧ Source.show_date src = prop o "show_date")
                rows (sources data).
Proof.
  intros Ho Hr. rewrite (response_opened env realm Ho) in Hr.
  injection Hr as <- _ _.
  destruct (snapshot_collections realm) as (_ & _ & [Hc|Hc] & _); [|by left].
  right. apply favoriteSources_inr in Hc as (rows & Hrows & Hall).
  exists rows. split; [done|]. eapply Forall2_impl; [exact Hall|].
  intros o src (u & a & s & Hu & Ha & Hs & ->)%toSource_inr. simpl.
  split_and!; eauto.
Qed.

Lemma sources_in_store_order_witness :
  opened (Sample.upload Sample.v9) = Some Sample.v9
  ∧ response (Sample.upload Sample.v9)
    = Some (json (SuccessBody (snapshot Sample.v9) false) 200)
  ∧ (sources (snapshot Sample.v9) = []
     ∨ ∃ rows,
         Realm.tables Sample.v9 !! "FavoritedSource" = Some rows
         ∧ Forall2 (λ o src,
                      (∃ u, prop o "uuid" = JS.VString u
                            ∧ Source.uuid src = JS.toLowerCase u)
                      ∧ (∃ a, prop o "artist_uuid" = JS.VString a
                              ∧ Source.artist_uuid src = JS.toLowerCase a)
                      ∧ (∃ s, prop o "show_uuid" = JS.VString s
                              ∧ Source.show_uuid src = JS.toLowerCase s)
                      ∧ Source.created_at src = prop o "created_at"
                      ∧ Source.show_date src = prop o "show_date")
                   rows (sources (snapshot Sample.v9))).
Proof.
  assert (Ho : opened (Sample.upload Sample.v9) = Some Sample.v9) by reflexivity.
  assert (Hr : response (Sample.upload Sample.v9)
               = Some (json (SuccessBody (snapshot Sample.v9) false) 200))
    by (vm_compute; reflexivity).
  split; [exact Ho|]. split; [exact Hr|].
  exact (sources_in_store_order _ _ _ _ _ Ho Hr).
Defined.

(** X11.  Whatever the store holds, every record in
    [offlineTracksBySource] comes from an offline track of state 3 in
    the store: it is filed under its own lowercased [source_uuid], and
    its [state], [file_size] and [created_at] are those of the stored
    object.  Tracks in any other state never reach the response. *)
Theorem offline_records_sound (env : Env) (realm : Realm.t)
    (data : LegacyData) (isEmpty : bool) (st : Z) (k : string)
    (l : list OfflineTrack.t) (t : OfflineTrack.t) :
  opened env = Some realm →
  response env = Some (json (SuccessBody data isEmpty) st) →
  offlineTracksBySource data !! k = Some l →
  t ∈ l →
  OfflineTrack.source_uuid t = k
  ∧ OfflineTrack.state t = JS.VNumber 3
  ∧ ∃ rows o,
      Realm.tables realm !! "OfflineTrack" = Some rows
      ∧ o ∈ rows
      ∧ prop o "state" = JS.VNumber 3
      ∧ toOfflineTrack o = inr t
      ∧ OfflineTrack.file_size t = prop o "file_size"
      ∧ OfflineTrack.created_at t = prop o "created_at".
Proof.
  intros Ho Hr Hl Ht. rewrite (response_opened env realm Ho) in Hr.
  injection Hr as <- _ _.
  destruct (snapshot_collections realm) as (_ & _ & _ & _ & [Hoff|Hoff]);
    [|by rewrite Hoff, lookup_empty in Hl].
  apply offlineTracks_inr in Hoff as (rows & tracks & Hrows & Hall & Hagg).
  apply aggregateBy_inr in Hagg as [_ Hlook]. rewrite Hlook in Hl.
  assert (Hfilter : filter (λ t, OfflineTrack.source_uuid t = k) tracks = l)
    by (destruct (filter _ tracks); congruence).
  rewrite <- Hfilter in Ht. apply list_elem_of_filter in Ht as [Hk Ht].
  rewrite filter_isDownloaded in Hall.
  apply list_elem_of_lookup in Ht as [i Hi].
  destruct (Forall2_lookup_r _ _ _ _ _ Hall Hi) as (o & Hoi & Hot).
  apply list_elem_of_lookup_2 in Hoi.
  apply list_elem_of_filter in Hoi as [Hstate Hin].
  pose proof Hot as (tr & a & s & c & _ & _ & _ & _ & Heq)%toOfflineTrack_inr.
  split; [done|]. split; [by rewrite Heq|].
  exists rows, o. split_and!; try done; by rewrite Heq.
Qed.

Lemma offline_records_sound_witness :
  opened (Sample.upload Sample.v9) = Some Sample.v9
  ∧ ∃ t, offlineTracksBySource (snapshot Sample.v9) !! "source-789" = Some [t]
         ∧ OfflineTrack.source_uuid t = "source-789"
         ∧ OfflineTrack.state t = JS.VNumber 3
         ∧ OfflineTrack.file_size t = JS.VNumber 5242880.
Proof.
  assert (Ho : opened (Sample.upload Sample.v9) = Some Sample.v9) by reflexivity.
  assert (Hr : response (Sample.upload Sample.v9)
               = Some (json (SuccessBody (snapshot Sample.v9) false) 200))
    by (vm_compute; reflexivity).
  split; [exact Ho|].
  eexists. split; [vm_compute; reflexivity|].
  match goal with
  | |- OfflineTrack.source_uuid ?t = _ ∧ _ =>
      assert (Hl : offlineTracksBySource (snapshot Sample.v9) !! "source-789"
                   = Some [t]) by (vm_compute; reflexivity);
      destruct (offline_records_sound _ _ _ _ _ _ _ t Ho Hr Hl
                  (list_elem_of_here _ _)) as (Hk & Hs & _)
  end.
  split; [exact Hk|]. split; [exact Hs|]. reflexivity.
Defined.

(** * Further properties of aggregateBy *)

Section aggregateBy_more.
Context {A : Type} (keySelector : A → string).

Implicit Types (acc m : gmap string (list A)) (items : list A).

Lemma grouped_insert_new m k (l : list A) :
  m !! k = None → grouped (<[k := l]> m) ≡ₚ l ++ grouped m.
Proof.
  intros Hk. unfold grouped. by rewrite (map_to_list_insert m k l Hk).
Qed.

Lemma grouped_insert_append m k (x : A) :
  grouped (<[k := default [] (m !! k) ++ [x]]> m) ≡ₚ grouped m ++ [x].
Proof.
  destruct (m !! k) as [l|] eqn:Hk; simpl.
  - rewrite <- insert_delete_eq.
    rewrite grouped_insert_new by apply lookup_delete_eq.
    unfold grouped at 2. rewrite <- (map_to_list_delete m k l Hk). csimpl.
    fold (grouped (delete k m)). rewrite <- !app_assoc.
    apply Permutation_app_head. simpl. apply Permutation_cons_append.
  - rewrite grouped_insert_new by done. simpl. apply Permutation_cons_append.
Qed.

Lemma foldRes_grouped items acc m :
  foldRes (aggregateStep keySelector) acc items = inr m →
  (∀ k, JS.inherited k = true → acc !! k = None) →
  grouped m ≡ₚ grouped acc ++ items.
Proof.
  revert acc. induction items as [|x items IH]; intros acc Hm Hacc; simpl in Hm.
  - injection Hm as <-. by rewrite app_nil_r.
  - destruct (JS.inherited (keySelector x)) eqn:Hx.
    + by rewrite (aggregateStep_inherited keySelector acc x Hx (Hacc _ Hx)) in Hm.
    + rewrite (aggregateStep_plain keySelector acc x Hx) in Hm. simpl in Hm.
      rewrite (IH _ Hm).
      * rewrite grouped_insert_append. by rewrite <- app_assoc.
      * intros k Hk. rewrite lookup_insert_ne; [by apply Hacc|congruence].
Qed.

Lemma aggregateBy_grouped items m :
  aggregateBy keySelector items = inr m → grouped m ≡ₚ items.
Proof.
  intros Hm. rewrite (foldRes_grouped items ∅ m Hm).
  - unfold grouped. by rewrite map_to_list_empty.
  - intros k _. apply lookup_empty.
Qed.

End aggregateBy_more.

(** X12.  [aggregateBy] returns a mapping exactly when no item's key is
    a name inherited from [Object.prototype]; otherwise it throws the
    [TypeError] of the failed [push], whatever the other items are. *)
Theorem aggregateBy_returns_iff {A : Type} (keySelector : A → string)
    (items : list A) :
  ((∃ m, aggregateBy keySelector items = inr m)
   ↔ Forall (λ x, JS.inherited (keySelector x) = false) items)
  ∧ (Exists (λ x, JS.inherited (keySelector x) = true) items →
     aggregateBy keySelector items
     = inl (JS.Error "result[key].push is not a function")).
Proof.
  split; [split|].
  - intros [m Hm]. by apply aggregateBy_inr in Hm as [? _].
  - intros Hitems.
    destruct (aggregateBy_partition keySelector items Hitems) as (m & Hm & _).
    eauto.
  - apply aggregateBy_throws.
Qed.

(** X13.  A mapping returned by [aggregateBy] holds every item exactly
    once: its groups, taken together, are a rearrangement of the items. *)
Theorem aggregateBy_keeps_every_item {A : Type} (keySelector : A → string)
    (items : list A) (m : gmap string (list A)) :
  aggregateBy keySelector items = inr m →
  grouped m ≡ₚ items
  ∧ (size m ≤ length items)%nat.
Proof.
  intros Hm. pose proof (aggregateBy_grouped keySelector items m Hm) as Hperm.
  split; [done|].
  apply aggregateBy_inr in Hm as [_ Hlook].
  rewrite <- (Permutation_length Hperm). unfold grouped.
  rewrite <- length_map_to_list.
  assert (Hne : Forall (λ kl, kl.2 ≠ []) (map_to_list m)).
  { apply Forall_forall. intros [k l] Hkl%elem_of_map_to_list. simpl.
    rewrite Hlook in Hkl. destruct (filter _ items); [done|].
    by injection Hkl as <-. }
  induction Hne as [|[k l] kls Hl _ IH]; [simpl; lia|]. csimpl in *.
  rewrite length_app. destruct l; [done|]. simpl. lia.
Qed.

Lemma aggregateBy_keeps_every_item_witness :
  aggregateBy (λ x : string, JS.toLowerCase x) ["B"; "a"; "b"]
  = inr {[ "b" := ["B"; "b"]; "a" := ["a"] ]}
  ∧ grouped ({[ "b" := ["B"; "b"]; "a" := ["a"] ]} : gmap string (list string))
    ≡ₚ ["B"; "a"; "b"].
Proof.
  assert (H : aggregateBy (λ x : string, JS.toLowerCase x) ["B"; "a"; "b"]
              = inr {[ "b" := ["B"; "b"]; "a" := ["a"] ]})
    by (vm_compute; reflexivity).
  split; [exact H|].
  exact (proj1 (aggregateBy_keeps_every_item _ _ _ H)).
Defined.

(** X14.  The keys of a mapping returned by [aggregateBy] are exactly
    the keys selected from the items: no item's key is missing and no
    other key appears. *)
Theorem aggregateBy_keys {A : Type} (keySelector : A → string)
    (items : list A) (m : gmap string (list A)) (k : string) :
  aggregateBy keySelector items = inr m →
  is_Some (m !! k) ↔ k ∈ keySelector <$> items.
Proof.
  intros [_ Hlook]%aggregateBy_inr. rewrite Hlook, list_elem_of_fmap. split.
  - intros [l Hl].
    destruct (filter _ items) as [|x l'] eqn:Hf; [done|].
    assert (Hx : x ∈ filter (λ x, keySelector x = k) items)
      by (rewrite Hf; apply list_elem_of_here).
    apply list_elem_of_filter in Hx as [Hk Hx]. eauto.
  - intros (x & -> & Hx).
    assert (Hin : x ∈ filter (λ y, keySelector y = keySelector x) items)
      by by apply list_elem_of_filter.
    destruct (filter _ items); [by apply elem_of_nil in Hin|eauto].
Qed.

Lemma aggregateBy_keys_witness :
  aggregateBy (λ x : string, JS.toLowerCase x) ["B"; "a"; "b"]
  = inr {[ "b" := ["B"; "b"]; "a" := ["a"] ]}
  ∧ (is_Some (({[ "b" := ["B"; "b"]; "a" := ["a"] ]}
               : gmap string (list string)) !! "c")
     ↔ "c" ∈ (λ x : string, JS.toLowerCase x) <$> ["B"; "a"; "b"]).
Proof.
  assert (H : aggregateBy (λ x : string, JS.toLowerCase x) ["B"; "a"; "b"]
              = inr {[ "b" := ["B"; "b"]; "a" := ["a"] ]})
    by (vm_compute; reflexivity).
  split; [exact H|].
  exact (aggregateBy_keys _ _ _ "c" H).
Defined.

(** * Stores that follow the declared schema *)

Section declared_schema.

Lemma offlineTracks_hasTable (realm : Realm.t) :
  hasTable realm OfflineTrackSchema →
  (∀ rows, Realm.tables realm !! "OfflineTrack" = Some rows →
     Forall (λ o, ∀ s, prop o "source_uuid" = JS.VString s →
                       JS.inherited (JS.toLowerCase s) = false)
            (filter (λ o, prop o "state" = JS.VNumber 3) rows)) →
  ∃ m rows tracks,
    offlineTracks realm = inr m
    ∧ Realm.tables realm !! "OfflineTrack" = Some rows
    ∧ Forall2 (λ o t, toOfflineTrack o = inr t)
              (filter (λ o, prop o "state" = JS.VNumber 3) rows) tracks
    ∧ grouped m ≡ₚ tracks.
Proof.
  intros (rows & Hrows & Hconf) Hkeys. specialize (Hkeys rows Hrows).
  assert (Ht := conforms_string OfflineTrackSchema rows "track_uuid"
                  ltac:(declared_property) Hconf).
  assert (Ha := conforms_string OfflineTrackSchema rows "artist_uuid"
                  ltac:(declared_property) Hconf).
  assert (Hs := conforms_string OfflineTrackSchema rows "show_uuid"
                  ltac:(declared_property) Hconf).
  assert (Hc := conforms_string OfflineTrackSchema rows "source_uuid"
                  ltac:(declared_property) Hconf).
  assert (Hstr : Forall stringIdentifiers
                   (filter (λ o, prop o "state" = JS.VNumber 3) rows)).
  { apply Forall_forall. intros o [_ Ho]%list_elem_of_filter.
    rewrite Forall_forall in Ht, Ha, Hs, Hc.
    destruct (Ht o Ho) as [t Ht'], (Ha o Ho) as [a Ha'],
      (Hs o Ho) as [s Hs'], (Hc o Ho) as [c Hc'].
    by exists t, a, s, c. }
  clear Ht Ha Hs Hc Hconf.
  set (downloaded := filter (λ o, prop o "state" = JS.VNumber 3) rows) in *.
  assert (Htracks : ∃ tracks,
    Forall2 (λ o t, toOfflineTrack o = inr t) downloaded tracks
    ∧ Forall (λ t, JS.inherited (OfflineTrack.source_uuid t) = false) tracks).
  { clearbody downloaded. clear Hrows.
    induction downloaded as [|o downloaded IH].
    - exists []. split; constructor.
    - apply Forall_cons in Hstr as [Ho Hstr], Hkeys as [Hk Hkeys].
      destruct (IH Hkeys Hstr) as (tracks & Hall & Hplain).
      destruct (toOfflineTrack_total o Ho) as [t Ht].
      pose proof Ht as (tr & a & s & c & _ & _ & _ & Hc & ->)%toOfflineTrack_inr.
      eexists (_ :: tracks). split; constructor; try done. simpl. by apply Hk. }
  destruct Htracks as (tracks & Hall & Hplain).
  destruct (aggregateBy_partition OfflineTrack.source_uuid tracks Hplain)
    as (m & Hm & _).
  exists m, rows, tracks. split_and!; try done.
  - apply offlineTracks_inr. exists rows, tracks. split_and!; try done.
    by rewrite filter_isDownloaded.
  - by apply aggregateBy_grouped in Hm.
Qed.

End declared_schema.

(** X15.  For a store that follows the declared schema, and whose
    downloaded tracks have no source named like a member of
    [Object.prototype], the extraction is complete: no warning is
    logged, each identifier list holds one lowercased [uuid] per object
    of its table, [sources] has one record per favorited source, and
    [offlineTracksBySource] holds one record per offline track of
    state 3. *)
Theorem declared_schema_extracts_everything (env : Env) (realm : Realm.t) :
  opened env = Some realm →
  followsDeclaredSchema realm →
  (∀ rows, Realm.tables realm !! "OfflineTrack" = Some rows →
     Forall (λ o, ∀ s, prop o "source_uuid" = JS.VString s →
                       JS.inherited (JS.toLowerCase s) = false)
            (filter (λ o, prop o "state" = JS.VNumber 3) rows)) →
  warnings (trace env) = []
  ∧ ∃ data,
      response env = Some (json (SuccessBody data (isEmptyOf data)) 200)
      ∧ populatedFrom realm "FavoritedTrack" (trackUuids data)
      ∧ populatedFrom realm "FavoritedShow" (showUuids data)
      ∧ populatedFrom realm "FavoritedArtist" (artistUuids data)
      ∧ (∃ rows, Realm.tables realm !! "FavoritedSource" = Some rows
                 ∧ length (sources data) = length rows)
      ∧ (∃ rows, Realm.tables realm !! "OfflineTrack" = Some rows
                 ∧ length (grouped (offlineTracksBySource data))
                   = length (filter (λ o, prop o "state" = JS.VNumber 3) rows)).
Proof.
  intros Ho Hschema Hkeys. unfold followsDeclaredSchema, declaredSchema in Hschema.
  apply Forall_cons in Hschema as [Ha Hschema].
  apply Forall_cons in Hschema as [Hs Hschema].
  apply Forall_cons in Hschema as [Hc Hschema].
  apply Forall_cons in Hschema as [Ht Hschema].
  apply Forall_cons in Hschema as [_ Hschema].
  apply Forall_cons in Hschema as [Hoff _].
  destruct (favoriteUuids_hasTable realm FavoritedTrackSchema
              ltac:(declared_property) Ht) as (tids & Htids & Htpop).
  destruct (favoriteUuids_hasTable realm FavoritedShowSchema
              ltac:(declared_property) Hs) as (sids & Hsids & Hspop).
  destruct (favoriteUuids_hasTable realm FavoritedArtistSchema
              ltac:(declared_property) Ha) as (aids & Haids & Hapop).
  destruct (favoriteSources_hasTable realm Hc) as (srcs & crows & Hsrcs & Hcrows & Hcall).
  destruct (offlineTracks_hasTable realm Hoff Hkeys)
    as (m & orows & tracks & Hm & Horows & Hoall & Hperm).
  simpl in Htids, Hsids, Haids.
  assert (Hfail : firstFailure realm = None).
  { unfold firstFailure. by rewrite Htids, Hsids, Hsrcs, Haids, Hm. }
  split.
  - destruct (opened_Some env realm Ho) as (file & Hdb & Hw & Hopen).
    unfold trace. rewrite (migrate_opened env file realm Hdb Hw Hopen). simpl.
    rewrite Hfail. unfold openEvents, warnings.
    by destruct (openDeclared file).
  - exists (snapshot realm). split; [by apply response_opened|].
    unfold snapshot; simpl. rewrite Htids, Hsids, Haids, Hsrcs, Hm; simpl.
    split_and!; try done.
    + exists crows. split; [done|]. symmetry. by eapply Forall2_length.
    + exists orows. split; [done|]. rewrite Hperm. symmetry.
      by eapply Forall2_length.
Qed.

Lemma declared_schema_extracts_everything_witness :
  opened (Sample.upload Sample.v9Played) = Some Sample.v9Played
  ∧ warnings (trace (Sample.upload Sample.v9Played)) = []
  ∧ ∃ data,
      response (Sample.upload Sample.v9Played)
      = Some (json (SuccessBody data (isEmptyOf data)) 200)
      ∧ populatedFrom Sample.v9Played "FavoritedTrack" (trackUuids data)
      ∧ populatedFrom Sample.v9Played "FavoritedShow" (showUuids data)
      ∧ populatedFrom Sample.v9Played "FavoritedArtist" (artistUuids data)
      ∧ (∃ rows, Realm.tables Sample.v9Played !! "FavoritedSource" = Some rows
                 ∧ length (sources data) = length rows)
      ∧ (∃ rows, Realm.tables Sample.v9Played !! "OfflineTrack" = Some rows
                 ∧ length (grouped (offlineTracksBySource data))
                   = length (filter (λ o, prop o "state" = JS.VNumber 3) rows)).
Proof.
  split; [reflexivity|].
  apply (declared_schema_extracts_everything
           (Sample.upload Sample.v9Played) Sample.v9Played).
  - reflexivity.
  - repeat apply Forall_cons_2; [..|apply Forall_nil_2].
    + conforms_sample [Sample.artist].
    + conforms_sample [Sample.show].
    + conforms_sample [Sample.source].
    + conforms_sample [Sample.track "track-101"].
    + conforms_sample [Sample.recentlyPlayed].
    + conforms_sample [Sample.offlineTrack "source-789"].
    + exists []. split; [reflexivity|]. split; constructor.
  - intros rows Hrows.
    change (Some [Sample.offlineTrack "source-789"] = Some rows) in Hrows.
    injection Hrows as <-.
    rewrite filter_cons, decide_True by (vm_compute; reflexivity).
    constructor; [|constructor].
    intros s Hs. vm_compute in Hs. injection Hs as <-. vm_compute; reflexivity.
Defined.

(** * The test suite's copy of the route and its database *)

(** X16.  The copy of the route kept in the test suite answers every
    request as the deployed route does, and treats the temporary input
    and the store handle alike, whenever the uploaded file opens the
    same way under the two schema arrays; this holds for every
    behaviour of [c.json]. *)
Theorem test_copy_agrees (c_json : Body → Z → Res Response) (env : Env) :
  (∀ file, database env = inr (Some (FileEntry file)) →
           openWith file withTestSchema = openWith file withDeclaredSchema) →
  responseTestCopy c_json env = responseWith c_json env
  ∧ fileEvents (traceTestCopy c_json env) = fileEvents (traceWith c_json env)
  ∧ openOutcomes (traceTestCopy c_json env) = openOutcomes (traceWith c_json env)
  ∧ closes (traceTestCopy c_json env) = closes (traceWith c_json env)
  ∧ warnings (traceTestCopy c_json env) = warnings (traceWith c_json env).
Proof.
  intros Hsame.
  unfold responseTestCopy, responseWith, traceTestCopy, traceWith, migrateTestCopy,
    fileEvents, openOutcomes, closes, warnings.
  unfold_handler.
  destruct (database env) as [e|[[file|[|a text]]|]] eqn:Hdb; simpl.
  - by destruct (c_json _ _).
  - rewrite (Hsame file eq_refl). destruct (writeError env); simpl.
    + destruct (c_json _ _); simpl; by destruct (unlinkError env).
    + destruct (openWith file withDeclaredSchema); simpl;
        [destruct (openWith file withoutSchema); simpl|];
        try (rewrite !extraction_run; simpl; destruct (firstFailure _); simpl);
        repeat match goal with
               | |- context [c_json ?b ?st] => destruct (c_json b st); simpl
               end;
        by destruct (unlinkError env).
  - destruct (c_json (ErrorBody _) _); simpl; [by destruct (c_json _ _)|done].
  - destruct (c_json _ _); simpl; by destruct (unlinkError env).
  - destruct (c_json (ErrorBody _) _); simpl; [by destruct (c_json _ _)|done].
Qed.

Lemma test_copy_agrees_witness :
  (∀ file, database Requests.garbage = inr (Some (FileEntry file)) →
           openWith file withTestSchema = openWith file withDeclaredSchema)
  ∧ responseTestCopy serialize Requests.garbage
    = responseWith serialize Requests.garbage
  ∧ responseWith serialize Requests.garbage
    = Some (json (ErrorBody "Unable to read database or unsupported version") 400).
Proof.
  assert (H : ∀ file, database Requests.garbage = inr (Some (FileEntry file)) →
                openWith file withTestSchema = openWith file withDeclaredSchema)
    by (intros file [= <-]; reflexivity).
  split; [exact H|]. split; [|reflexivity].
  exact (proj1 (test_copy_agrees serialize Requests.garbage H)).
Defined.

(** X17.  For every clock value [generateTestDatabase] writes its
    database without any [create] throwing, and the written store has
    schema version 9, follows the five schemas it was opened with and
    holds one object of each type. *)
Theorem generateTestDatabase_writes (now : Z) :
  generateTestDatabase now = inr (Generated.store now)
  ∧ Realm.schemaVersion (Generated.store now) = 9%Z
  ∧ Forall (hasTable (Generated.store now)) testSchema
  ∧ Forall (λ schema, ∃ o, Realm.tables (Generated.store now) !! name schema
                           = Some [o]) testSchema.
Proof.
  split; [reflexivity|]. split; [reflexivity|]. split.
  - repeat apply Forall_cons_2; [..|apply Forall_nil_2].
    + conforms_sample [Generated.artist now].
    + conforms_sample [Generated.show now].
    + conforms_sample [Generated.source now].
    + conforms_sample [Generated.track now].
    + conforms_sample [Generated.offlineTrack now].
  - repeat apply Forall_cons_2; [..|apply Forall_nil_2]; eexists; reflexivity.
Qed.

(** X18.  The test of the suite holds for every clock value: the copy
    of the route, given an upload that opens as the store
    [generateTestDatabase] wrote, answers 200 with [isEmpty] false, the
    three identifiers, the one source and the one downloaded track with
    state 3 and file size 5242880 filed under [source-789].  The upload
    may open at the first attempt, under the five schemas of the copy,
    or only at the second, schemaless attempt after the first has
    thrown, as a file written at schema version 9 does when the route
    declares no version. *)
Theorem generated_database_migrates (now : Z) (env : Env) (file : File)
    (realm : Realm.t) :
  generateTestDatabase now = inr realm →
  database env = inr (Some (FileEntry file)) →
  writeError env = None →
  openWith file withTestSchema = inr realm
  ∨ ((∃ e, openWith file withTestSchema = inl e)
     ∧ openWith file withoutSchema = inr realm) →
  responseTestCopy serialize env
  = Some (json (SuccessBody (Generated.expected now) false) 200).
Proof.
  intros Hgen Hdb Hw Hopen.
  assert (Hrealm : realm = Generated.store now).
  { assert (Hstore : generateTestDatabase now = inr (Generated.store now))
      by reflexivity.
    congruence. }
  subst realm.
  assert (Hfail : firstFailure (Generated.store now) = None)
    by (vm_compute; reflexivity).
  unfold responseTestCopy, migrateTestCopy. unfold_handler.
  rewrite Hdb, Hw. simpl.
  destruct Hopen as [Hopen|[[e He] Hopen]].
  - rewrite Hopen. simpl. rewrite extraction_run. simpl.
    rewrite Hfail. simpl.
    destruct (unlinkError env); simpl; vm_compute; reflexivity.
  - rewrite He. simpl. rewrite Hopen. simpl. rewrite extraction_run. simpl.
    rewrite Hfail. simpl.
    destruct (unlinkError env); simpl; vm_compute; reflexivity.
Qed.

Lemma generated_database_migrates_witness :
  generateTestDatabase 1700000000000 = inr (Generated.store 1700000000000)
  ∧ openWith (Sample.file (inl (JS.Error "schema mismatch"))
                          (inr (Generated.store 1700000000000)))
             withTestSchema
    = inl (JS.Error "schema mismatch")
  ∧ responseTestCopy serialize
      (Sample.uploadLegacy (Generated.store 1700000000000))
    = Some (json (SuccessBody (Generated.expected 1700000000000) false) 200).
Proof.
  assert (Hgen : generateTestDatabase 1700000000000
                 = inr (Generated.store 1700000000000)) by reflexivity.
  split; [exact Hgen|]. split; [reflexivity|].
  exact (generated_database_migrates 1700000000000
           (Sample.uploadLegacy (Generated.store 1700000000000)) _ _
           Hgen eq_refl eq_refl
           (or_intror (conj (ex_intro _ (JS.Error "schema mismatch") eq_refl)
                            eq_refl))).
Defined.

(** * The handle and the error log of runs that open no store *)

(** X19.  The handler never closes a store it did not open: in a run
    without a successful open, whatever [c.json] does, the trace holds
    no close and the handle is never touched. *)
Theorem no_open_no_close (c_json : Body → Z → Res Response) (env : Env) :
  (∀ config, EvOpen config true ∉ traceWith c_json env) →
  closes (traceWith c_json env) = 0%nat
  ∧ handleAfter (traceWith c_json env) = Idle.
Proof.
  unfold traceWith, closes, handleAfter.
  run_handler c_json env; intros Hno; try done; exfalso;
    first [ apply (Hno withDeclaredSchema); by repeat constructor
          | apply (Hno withoutSchema); by repeat constructor ].
Qed.

Lemma no_open_no_close_witness :
  (∀ config, EvOpen config true ∉ traceWith Sample.unserializable Requests.garbage)
  ∧ closes (traceWith Sample.unserializable Requests.garbage) = 0%nat
  ∧ handleAfter (traceWith Sample.unserializable Requests.garbage) = Idle.
Proof.
  assert (H : ∀ config,
            EvOpen config true ∉ traceWith Sample.unserializable Requests.garbage).
  { intros config Hin. vm_compute in Hin.
    repeat (apply elem_of_cons in Hin as [Hin|Hin]; [discriminate|]).
    by apply elem_of_nil in Hin. }
  split; [exact H|].
  exact (no_open_no_close Sample.unserializable Requests.garbage H).
Defined.

(** X20.  The deployed handler logs with [console.error] exactly the
    failures it answers with 500 or with the 400 for an unreadable
    database, once each: a 500 logs the error whose message it reports,
    an unreadable database logs the error of the schemaless open, and a
    success or a missing file logs nothing. *)
Theorem errors_logged (env : Env) (r : Response) :
  response env = Some r →
  (errorsLogged (trace env) = [] ↔
   status r = 200%Z ∨ body r = ErrorBody "Database file is required")
  ∧ (length (errorsLogged (trace env)) ≤ 1)%nat
  ∧ (∀ details, body r = ErrorDetailsBody "Database parsing failed" details →
       ∃ e, errorsLogged (trace env) = [e] ∧ details = JS.message e)
  ∧ (body r = ErrorBody "Unable to read database or unsupported version" →
     ∃ file e, database env = inr (Some (FileEntry file))
               ∧ openSchemaless file = inl e
               ∧ errorsLogged (trace env) = [e]).
Proof.
  unfold response, trace, errorsLogged.
  run_handler serialize env; intros [= <-]; simpl; split_and!;
    try (simpl; lia); try (intros; discriminate);
    try (split; [discriminate|intros [[=]|[=]]]; fail);
    try (split; [by eauto|done]; fail);
    try (intros ? [= <-]; by eauto);
    try (intros _; by eauto 10).
Qed.

Lemma errors_logged_witness :
  response Requests.garbage
  = Some (json (ErrorBody "Unable to read database or unsupported version") 400)
  ∧ errorsLogged (trace Requests.garbage) = [JS.Error "invalid"].
Proof.
  assert (Hr : response Requests.garbage
               = Some (json (ErrorBody "Unable to read database or unsupported version")
                            400)) by reflexivity.
  split; [exact Hr|].
  destruct (errors_logged Requests.garbage _ Hr) as (_ & _ & _ & Hlog).
  destruct (Hlog eq_refl) as (file & e & _ & _ & He).
  vm_compute in He. injection He as <-. reflexivity.
Defined.
